(** * Inter: signal scorer, indicator library, market-data cache and
    rate-limited signal store.

    A shallow embedding of [trading_engine.py], [technical_indicators.py]
    and [signal_manager.py].  Python floats are IEEE binary64 values
    (primitive floats), Python ints are [Z], dicts are [gmap]s, exceptions
    are an explicit [outcome] monad, and the libraries the code calls
    (pandas, json, datetime's ISO codec, yfinance, the random source) are
    interfaces the definitions are parameterised by. *)

From Stdlib Require Import ZArith List String Ascii Bool Lia Floats.
From stdpp Require Import base tactics option list gmap strings pretty.

Set Warnings "-inexact-float".
Local Open Scope Z_scope.

(* ================================================================== *)
(** ** Python values, exceptions and [try]/[except] *)
(* ================================================================== *)

Module Py.

Inductive exn : Type :=
  | KeyError | IndexError | AttributeError | TypeError | ValueError
  | ImportError | OtherError.

(** The result of running a block: it returns a value or raises. *)
Inductive outcome (A : Type) : Type :=
  | Return (a : A)
  | Raise (e : exn).
Arguments Return {A} a.
Arguments Raise {A} e.

#[global] Instance outcome_ret : MRet outcome := fun A a => Return a.
#[global] Instance outcome_bind : MBind outcome := fun A B f m =>
  match m with
  | Return a => f a
  | Raise e => Raise e
  end.

(** [try: body except Exception as e: handler e]. *)
Definition try_except {A} (body : outcome A) (handler : exn -> outcome A)
  : outcome A :=
  match body with
  | Return a => Return a
  | Raise e => handler e
  end.

Definition raises {A} (o : outcome A) : Prop := exists e, o = Raise e.

(** Float comparisons as Python writes them; every one is [False] on NaN. *)
Definition flt (a b : float) : bool := PrimFloat.ltb a b.
Definition fgt (a b : float) : bool := PrimFloat.ltb b a.
Definition fle (a b : float) : bool := PrimFloat.leb a b.
Definition fge (a b : float) : bool := PrimFloat.leb b a.

(** [min(a, b)] on floats: the first argument unless the second is smaller. *)
Definition fmin (a b : float) : float := if flt b a then b else a.

(** A naive [datetime] is the count of microseconds since the start of
    the calendar; a [timedelta] is kept normalised as Python keeps it. *)
Definition datetime := Z.

Record timedelta : Type := {
  days : Z;
  seconds : Z;
  microseconds : Z
}.

Definition us_per_second : Z := 1000000.
Definition us_per_day : Z := 86400 * us_per_second.

Definition timedelta_of_us (d : Z) : timedelta := {|
  days := d / us_per_day;
  seconds := (d mod us_per_day) / us_per_second;
  microseconds := (d mod us_per_day) mod us_per_second
|}.

(** [a - b] on datetimes. *)
Definition datetime_sub (a b : datetime) : timedelta := timedelta_of_us (a - b).

(** [timedelta(hours = h)], and [t - timedelta(...)]. *)
Definition hours (h : Z) : Z := h * 3600 * us_per_second.
Definition timedelta_days (d : Z) : Z := d * us_per_day.

(** The values a signal dict holds. *)
Inductive pyval : Type :=
  | PNone
  | PBool (b : bool)
  | PInt (z : Z)
  | PFloat (f : float)
  | PStr (s : string)
  | PDatetime (t : datetime)
  | PObject (tag : nat).

Abbreviation pydict := (gmap string pyval).

(** [d[k]]: raises [KeyError] on a missing key. *)
Definition getitem (d : pydict) (k : string) : outcome pyval :=
  match d !! k with
  | Some v => Return v
  | None => Raise KeyError
  end.

End Py.
Import Py.

(* ================================================================== *)
(** ** pandas: series and data frames *)
(* ================================================================== *)

Module Pandas.

(** A series is a list of labelled cells; its index and values are
    aligned by construction. *)
Definition Series := list (Z * float).

Definition index (s : Series) : list Z := fmap fst s.
Definition values (s : Series) : list float := fmap snd s.

(** [s.empty] *)
Definition empty (s : Series) : bool := bool_decide (s = []).

(** [s.iloc[-k]] for [k >= 1]. *)
Definition iloc_neg (s : Series) (k : nat) : outcome float :=
  match rev (values s) !! (k - 1)%nat with
  | Some v => Return v
  | None => Raise IndexError
  end.

(** [s.iloc[0]] *)
Definition iloc_0 (s : Series) : outcome float :=
  match values s !! 0%nat with
  | Some v => Return v
  | None => Raise IndexError
  end.

(** [s.tail(n)] *)
Definition tail (n : nat) (s : Series) : Series :=
  drop (length s - n)%nat s.

(** [pd.Series(index = idx, dtype = float)]: every cell undefined. *)
Definition nan_series (idx : list Z) : Series :=
  fmap (fun i => (i, PrimFloat.nan)) idx.

(** A data frame: the column names, the rows (label and cell of each
    column), and [attrs].  Every column has the frame's length. *)
Record DataFrame : Type := {
  columns : list string;
  rows : list (Z * (string -> float));
  attrs : gmap string string
}.

(** [len(df)] *)
Definition df_len (df : DataFrame) : nat := length (rows df).

(** [df.empty]: no rows or no columns. *)
Definition df_empty (df : DataFrame) : bool :=
  bool_decide (rows df = []) || bool_decide (columns df = []).

(** [name in df.columns] *)
Definition has_column (df : DataFrame) (name : string) : bool :=
  bool_decide (name ∈ columns df).

(** [df[name]]: raises [KeyError] when the column is missing. *)
Definition column (df : DataFrame) (name : string) : outcome Series :=
  if has_column df name
  then Return (fmap (fun r => (r.1, r.2 name)) (rows df))
  else Raise KeyError.

(** What the code calls on pandas and does not define: rolling and
    exponentially weighted windows, element-wise arithmetic with index
    alignment, and the mean of a series.  Each windowed or aligned
    operation may raise. *)
Inductive pyobj : Type :=
  | ObjNone
  | ObjSeries (s : Series)
  | ObjList (l : list float).

Inductive binop : Type := Add | Sub | Mul | Div.

Class Ops : Type := {
  series_mean : Series -> float;
  rolling_mean : Series -> Z -> outcome Series;
  rolling_std : Series -> Z -> outcome Series;
  rolling_min : Series -> Z -> outcome Series;
  rolling_max : Series -> Z -> outcome Series;
  rolling_mad : Series -> Z -> outcome Series;
  ewm_mean : Series -> Z -> outcome Series;
  series_diff : Series -> outcome Series;
  series_shift : Series -> Z -> outcome Series;
  where_gt0 : Series -> outcome Series;
  where_lt0 : Series -> outcome Series;
  series_abs : pyobj -> outcome pyobj;
  series_neg : pyobj -> outcome pyobj;
  arith : binop -> pyobj -> pyobj -> outcome pyobj;
  arith_scalar_l : binop -> float -> pyobj -> outcome pyobj;
  arith_scalar_r : binop -> pyobj -> float -> outcome pyobj;
  concat_max : list pyobj -> outcome pyobj
}.

(** A method of [Series] called on an object: only a series has it. *)
Definition method (o : pyobj) (m : Series -> outcome Series) : outcome pyobj :=
  match o with
  | ObjSeries s => s' ← m s; mret (ObjSeries s')
  | ObjNone | ObjList _ => Raise AttributeError
  end.

(** [pd.Series(index = o.index, dtype = float)]: [None] has no [index],
    and a list's [index] is a method, which is no index. *)
Definition nan_like (o : pyobj) : outcome pyobj :=
  match o with
  | ObjSeries s => Return (ObjSeries (nan_series (index s)))
  | ObjNone => Raise AttributeError
  | ObjList _ => Raise TypeError
  end.

End Pandas.
Import Pandas.

(* ================================================================== *)
(** ** technical_indicators.py *)
(* ================================================================== *)

Module TechnicalIndicators.
(** The all-undefined series on the index of [s], and what it means for
    a function to recover: it returns what its body returned, or the
    fallback when the body raised. *)
Definition undefined_like (s : Series) : pyobj :=
  ObjSeries (nan_series (index s)).

Definition recovers {A} (body result : outcome A) (fallback : A) : Prop :=
  result = match body with
           | Return r => Return r
           | Raise _ => Return fallback
           end.

Section Indicators.
Context `{Ops}.

(** Each function is [try: body except Exception: fallback]; the body is
    kept as a definition of its own so that "the computation raised" can
    be said. *)

Definition calculate_sma_body (data : pyobj) (period : Z) : outcome pyobj :=
  method data (fun s => rolling_mean s period).

Definition calculate_sma (data : pyobj) (period : Z) : outcome pyobj :=
  try_except (calculate_sma_body data period) (fun _ => nan_like data).

Definition calculate_ema_body (data : pyobj) (period : Z) : outcome pyobj :=
  method data (fun s => ewm_mean s period).

Definition calculate_ema (data : pyobj) (period : Z) : outcome pyobj :=
  try_except (calculate_ema_body data period) (fun _ => nan_like data).

Definition calculate_rsi_body (data : pyobj) (period : Z) : outcome pyobj :=
  delta ← method data series_diff;
  up ← method delta where_gt0;
  gain ← method up (fun s => rolling_mean s period);
  down ← method delta where_lt0;
  ndown ← series_neg down;
  loss ← method ndown (fun s => rolling_mean s period);
  rs ← arith Div gain loss;
  d ← arith_scalar_l Add 1%float rs;
  q ← arith_scalar_l Div 100%float d;
  arith_scalar_l Sub 100%float q.

Definition calculate_rsi (data : pyobj) (period : Z) : outcome pyobj :=
  try_except (calculate_rsi_body data period) (fun _ => nan_like data).

(** A mapping of named series, built entry by entry. *)
Definition mapping (entries : list (string * outcome pyobj))
  : outcome (gmap string pyobj) :=
  foldr (fun e acc =>
           v ← e.2; m ← acc; mret (<[e.1 := v]> m))
        (Return ∅) entries.

Definition calculate_macd_body (data : pyobj) (fast slow signal : Z)
  : outcome (gmap string pyobj) :=
  exp1 ← method data (fun s => ewm_mean s fast);
  exp2 ← method data (fun s => ewm_mean s slow);
  macd ← arith Sub exp1 exp2;
  macd_signal ← method macd (fun s => ewm_mean s signal);
  macd_hist ← arith Sub macd macd_signal;
  mapping [("MACD", Return macd); ("MACD_Signal", Return macd_signal);
           ("MACD_Hist", Return macd_hist)]%string.

Definition calculate_macd (data : pyobj) (fast slow signal : Z)
  : outcome (gmap string pyobj) :=
  try_except (calculate_macd_body data fast slow signal)
    (fun _ => mapping [("MACD", nan_like data); ("MACD_Signal", nan_like data);
                       ("MACD_Hist", nan_like data)]%string).

Definition calculate_bollinger_bands_body (data : pyobj) (period : Z)
    (std_dev : float) : outcome (gmap string pyobj) :=
  sma ← calculate_sma data period;
  rstd ← method data (fun s => rolling_std s period);
  w1 ← arith_scalar_r Mul rstd std_dev;
  upper_band ← arith Add sma w1;
  w2 ← arith_scalar_r Mul rstd std_dev;
  lower_band ← arith Sub sma w2;
  mapping [("BB_Upper", Return upper_band); ("BB_Middle", Return sma);
           ("BB_Lower", Return lower_band)]%string.

Definition calculate_bollinger_bands (data : pyobj) (period : Z)
    (std_dev : float) : outcome (gmap string pyobj) :=
  try_except (calculate_bollinger_bands_body data period std_dev)
    (fun _ => mapping [("BB_Upper", nan_like data); ("BB_Middle", nan_like data);
                       ("BB_Lower", nan_like data)]%string).

Definition calculate_stochastic_body (high low close : pyobj)
    (k_period d_period : Z) : outcome (gmap string pyobj) :=
  lowest_low ← method low (fun s => rolling_min s k_period);
  highest_high ← method high (fun s => rolling_max s k_period);
  num ← arith Sub close lowest_low;
  den ← arith Sub highest_high lowest_low;
  ratio ← arith Div num den;
  k_percent ← arith_scalar_l Mul 100%float ratio;
  d_percent ← method k_percent (fun s => rolling_mean s d_period);
  mapping [("Stoch_K", Return k_percent); ("Stoch_D", Return d_percent)]%string.

Definition calculate_stochastic (high low close : pyobj)
    (k_period d_period : Z) : outcome (gmap string pyobj) :=
  try_except (calculate_stochastic_body high low close k_period d_period)
    (fun _ => mapping [("Stoch_K", nan_like close);
                       ("Stoch_D", nan_like close)]%string).

Definition calculate_atr_body (high low close : pyobj) (period : Z)
  : outcome pyobj :=
  tr1 ← arith Sub high low;
  prev1 ← method close (fun s => series_shift s 1);
  d2 ← arith Sub high prev1;
  tr2 ← series_abs d2;
  prev2 ← method close (fun s => series_shift s 1);
  d3 ← arith Sub low prev2;
  tr3 ← series_abs d3;
  true_range ← concat_max [tr1; tr2; tr3];
  method true_range (fun s => rolling_mean s period).

Definition calculate_atr (high low close : pyobj) (period : Z)
  : outcome pyobj :=
  try_except (calculate_atr_body high low close period)
    (fun _ => nan_like close).

Definition calculate_williams_r_body (high low close : pyobj) (period : Z)
  : outcome pyobj :=
  highest_high ← method high (fun s => rolling_max s period);
  lowest_low ← method low (fun s => rolling_min s period);
  num ← arith Sub highest_high close;
  den ← arith Sub highest_high lowest_low;
  ratio ← arith Div num den;
  arith_scalar_l Mul (-100)%float ratio.

Definition calculate_williams_r (high low close : pyobj) (period : Z)
  : outcome pyobj :=
  try_except (calculate_williams_r_body high low close period)
    (fun _ => nan_like close).

Definition calculate_cci_body (high low close : pyobj) (period : Z)
  : outcome pyobj :=
  hl ← arith Add high low;
  hlc ← arith Add hl close;
  typical_price ← arith_scalar_r Div hlc 3%float;
  sma_tp ← method typical_price (fun s => rolling_mean s period);
  mad ← method typical_price (fun s => rolling_mad s period);
  num ← arith Sub typical_price sma_tp;
  den ← arith_scalar_l Mul 0.015%float mad;
  arith Div num den.

Definition calculate_cci (high low close : pyobj) (period : Z)
  : outcome pyobj :=
  try_except (calculate_cci_body high low close period)
    (fun _ => nan_like close).

Definition calculate_momentum_body (data : pyobj) (period : Z)
  : outcome pyobj :=
  prev ← method data (fun s => series_shift s period);
  ratio ← arith Div data prev;
  momentum ← arith_scalar_r Sub ratio 1%float;
  arith_scalar_r Mul momentum 100%float.

Definition calculate_momentum (data : pyobj) (period : Z) : outcome pyobj :=
  try_except (calculate_momentum_body data period) (fun _ => nan_like data).

Definition calculate_roc_body (data : pyobj) (period : Z) : outcome pyobj :=
  prev1 ← method data (fun s => series_shift s period);
  num ← arith Sub data prev1;
  prev2 ← method data (fun s => series_shift s period);
  ratio ← arith Div num prev2;
  arith_scalar_r Mul ratio 100%float.

Definition calculate_roc (data : pyobj) (period : Z) : outcome pyobj :=
  try_except (calculate_roc_body data period) (fun _ => nan_like data).

End Indicators.
End TechnicalIndicators.

(* ================================================================== *)
(** ** trading_engine.py *)
(* ================================================================== *)

Module TradingEngine.

Inductive Direction : Type := BUY | SELL.
Inductive Volatility : Type := Low | Medium | High.
Inductive Momentum : Type :=
  | Strong_Bullish | Strong_Bearish | Bullish | Bearish | Neutral.

#[global] Instance Direction_eq_dec : EqDecision Direction.
Proof. solve_decision. Defined.
#[global] Instance Volatility_eq_dec : EqDecision Volatility.
Proof. solve_decision. Defined.
#[global] Instance Momentum_eq_dec : EqDecision Momentum.
Proof. solve_decision. Defined.

Record SessionInfo : Type := {
  sessions : list string;
  volatility : Volatility
}.

Record MomentumAnalysis : Type := {
  momentum : Momentum;
  strength : float
}.

(** What the scorer reads from outside the process: the clock, whether
    [pytz] can be imported, and the outcome of the news provider's
    [get_market_sentiment()]. *)
Record Env : Type := {
  utc_hour : Z;
  pytz_importable : bool;
  news_sentiment : outcome float;
  now : datetime
}.

(** The dict the scorer returns.  [formatted_signal], a display text
    assembled from the fields below and the wall clock, is not kept. *)
Record Signal : Type := {
  pair : string;
  direction : Direction;
  confidence : Z;
  reason : string;
  entry_timing : string;
  timeframe : string;
  expiry_minutes : Z;
  entry_delay_seconds : Z;
  timestamp : datetime;
  rsi : float;
  macd : float;
  price : float;
  session_volatility : Volatility
}.

(** The locals the rule battery updates. *)
Record Score : Type := {
  signal_strength : Z;
  signal_direction : option Direction;
  technical_reasons : list string;
  entry_signals : list string
}.

(** The latest and second-latest values the rules look at. *)
Record Latest : Type := {
  latest_close : float;
  previous_close : float;
  latest_rsi : float;
  latest_macd : float;
  latest_macd_signal : float;
  ma_short : float;
  ma_long : float;
  bb_upper : float;
  bb_lower : float;
  bb_position : float;
  prev_ma_short : float;
  prev_ma_long : float;
  prev_macd : float;
  prev_macd_signal : float
}.

(** [get_market_session] *)
Definition session_table : list (string * (Z * Z)) :=
  [("Tokyo", (0, 9)); ("London", (8, 17)); ("New_York", (13, 22))]%string.

Definition get_market_session_body (env : Env) : outcome SessionInfo :=
  if negb (pytz_importable env) then Raise ImportError
  else
    let current_hour := utc_hour env in
    let active_sessions :=
      fmap fst
        (filter (fun e => e.2.1 <= current_hour < e.2.2) session_table) in
    if bool_decide (2 <= length active_sessions)%nat
    then Return {| sessions := active_sessions; volatility := High |}
    else if bool_decide (length active_sessions = 1%nat)
    then Return {| sessions := active_sessions; volatility := Medium |}
    else Return {| sessions := ["Off-Hours"%string]; volatility := Low |}.

Definition get_market_session (env : Env) : SessionInfo :=
  match get_market_session_body env with
  | Return s => s
  | Raise _ => {| sessions := ["Unknown"%string]; volatility := Medium |}
  end.

(** [indicators.get(name, pd.Series())] *)
Definition ind_series (indicators : gmap string Series) (name : string)
  : Series :=
  default [] (indicators !! name).

(** [indicators.get(name, pd.Series()).iloc[-1]] when that series is not
    empty, else [otherwise]. *)
Definition ind_last (indicators : gmap string Series) (name : string)
    (otherwise : float) : float :=
  let s := ind_series indicators name in
  if empty s then otherwise
  else match iloc_neg s 1 with
       | Return v => v
       | Raise _ => otherwise
       end.

(** [indicators.get(name, pd.Series()).iloc[-2]] when that series has
    more than one element, else [otherwise]. *)
Definition ind_prev (indicators : gmap string Series) (name : string)
    (otherwise : float) : float :=
  let s := ind_series indicators name in
  if bool_decide (1 < length s)%nat
  then match iloc_neg s 2 with
       | Return v => v
       | Raise _ => otherwise
       end
  else otherwise.

Definition read_latest (df : DataFrame) (indicators : gmap string Series)
  : outcome Latest :=
  close ← column df "Close";
  latest_close ← iloc_neg close 1;
  previous_close ←
    (if bool_decide (1 < df_len df)%nat then iloc_neg close 2
     else Return latest_close);
  let latest_rsi := ind_last indicators "RSI" 50%float in
  let latest_macd := ind_last indicators "MACD" 0%float in
  let latest_macd_signal := ind_last indicators "MACD_Signal" 0%float in
  let ma_short := ind_last indicators "MA_Short" latest_close in
  let ma_long := ind_last indicators "MA_Long" latest_close in
  mret {|
    latest_close := latest_close;
    previous_close := previous_close;
    latest_rsi := latest_rsi;
    latest_macd := latest_macd;
    latest_macd_signal := latest_macd_signal;
    ma_short := ma_short;
    ma_long := ma_long;
    bb_upper := ind_last indicators "BB_Upper" latest_close;
    bb_lower := ind_last indicators "BB_Lower" latest_close;
    bb_position := ind_last indicators "BB_Position" 0.5%float;
    prev_ma_short := ind_prev indicators "MA_Short" ma_short;
    prev_ma_long := ind_prev indicators "MA_Long" ma_long;
    prev_macd := ind_prev indicators "MACD" latest_macd;
    prev_macd_signal := ind_prev indicators "MACD_Signal" latest_macd_signal
  |}.

(** A triggered rule: add the weight, commit the direction, append the
    reason and the entry description. *)
Definition trigger (w : Z) (d : Direction) (why entry : string) (st : Score)
  : Score := {|
  signal_strength := signal_strength st + w;
  signal_direction := Some d;
  technical_reasons := technical_reasons st ++ [why];
  entry_signals := entry_signals st ++ [entry]
|}.

(** [signal_direction == d or signal_direction is None] *)
Definition agrees (d : Direction) (st : Score) : bool :=
  match signal_direction st with
  | None => true
  | Some d' => bool_decide (d' = d)
  end.

(** A rule of the guarded kind: applied only when the direction agrees. *)
Definition guarded (w : Z) (d : Direction) (why entry : string) (st : Score)
  : Score :=
  if agrees d st then trigger w d why entry st else st.

Definition initial : Score := {|
  signal_strength := 0;
  signal_direction := None;
  technical_reasons := [];
  entry_signals := []
|}.

(** 1. RSI *)
Definition rule_rsi (v : Latest) (st : Score) : Score :=
  if flt (latest_rsi v) 20 then
    trigger 40 BUY "RSI extreme oversold reversal" "Strong reversal setup" st
  else if flt (latest_rsi v) 30 then
    trigger 25 BUY "RSI oversold reversal" "Reversal setup" st
  else if fgt (latest_rsi v) 80 then
    trigger 40 SELL "RSI extreme overbought reversal" "Strong reversal setup" st
  else if fgt (latest_rsi v) 70 then
    trigger 25 SELL "RSI overbought reversal" "Reversal setup" st
  else st.

(** 2. Bollinger band breakout and bounce *)
Definition rule_bollinger (v : Latest) (st : Score) : Score :=
  if fgt (latest_close v) (bb_upper v) && fle (previous_close v) (bb_upper v)
  then trigger 35 BUY "Bollinger Band breakout" "Fresh breakout confirmed" st
  else if flt (latest_close v) (bb_lower v)
          && fge (previous_close v) (bb_lower v)
  then trigger 35 SELL "Bollinger Band breakdown" "Fresh breakdown confirmed" st
  else if flt (bb_position v) 0.05
          && fgt (latest_close v) (previous_close v)
  then trigger 30 BUY "Bollinger Band bounce up" "Support bounce confirmed" st
  else if fgt (bb_position v) 0.95
          && flt (latest_close v) (previous_close v)
  then trigger 30 SELL "Bollinger Band bounce down"
         "Resistance bounce confirmed" st
  else st.

(** 3. Moving averages *)
Definition rule_ma (v : Latest) (st : Score) : Score :=
  if fgt (ma_short v) (ma_long v) && fle (prev_ma_short v) (prev_ma_long v)
  then guarded 25 BUY "Fresh MA bullish cross" "Trend change confirmed" st
  else if flt (ma_short v) (ma_long v)
          && fge (prev_ma_short v) (prev_ma_long v)
  then guarded 25 SELL "Fresh MA bearish cross" "Trend change confirmed" st
  else if fgt (ma_short v) (ma_long v)
          && fgt (latest_close v) (ma_short v)
          && fle (previous_close v) (ma_short v)
  then guarded 15 BUY "MA bullish breakout" "Trend continuation" st
  else if flt (ma_short v) (ma_long v)
          && flt (latest_close v) (ma_short v)
          && fge (previous_close v) (ma_short v)
  then guarded 15 SELL "MA bearish breakdown" "Trend continuation" st
  else st.

(** 4. MACD signal-line cross *)
Definition rule_macd (v : Latest) (st : Score) : Score :=
  if fgt (latest_macd v) (latest_macd_signal v)
     && fle (prev_macd v) (prev_macd_signal v)
  then guarded 20 BUY "MACD bullish signal cross" "Momentum shift up" st
  else if flt (latest_macd v) (latest_macd_signal v)
          && fge (prev_macd v) (prev_macd_signal v)
  then guarded 20 SELL "MACD bearish signal cross" "Momentum shift down" st
  else st.

(** 5. Price momentum confirmation *)
Definition rule_momentum (m : MomentumAnalysis) (st : Score) : Score :=
  if bool_decide (momentum m = Strong_Bullish)
  then guarded 15 BUY "Strong bullish momentum" "Price acceleration up" st
  else if bool_decide (momentum m = Strong_Bearish)
  then guarded 15 SELL "Strong bearish momentum" "Price acceleration down" st
  else st.

(** 7. News sentiment; whatever the provider raises is swallowed. *)
Definition rule_news (env : Env) (st : Score) : Score :=
  match news_sentiment env with
  | Raise _ => st
  | Return s =>
      if fgt (PrimFloat.abs s) 0.3 then
        if (fgt s 0 && bool_decide (signal_direction st = Some BUY))
           || (flt s 0 && bool_decide (signal_direction st = Some SELL))
        then {|
          signal_strength := signal_strength st + 15;
          signal_direction := signal_direction st;
          technical_reasons := technical_reasons st ++ ["Strong news alignment"];
          entry_signals := entry_signals st ++ ["News sentiment supports trade"]
        |}
        else if bool_decide (signal_direction st = None) then {|
          signal_strength := signal_strength st + 10;
          signal_direction := Some (if fgt s 0 then BUY else SELL);
          technical_reasons := technical_reasons st ++ ["News-driven signal"];
          entry_signals := entry_signals st
        |}
        else st
      else st
  end.

(** [keeps st st']: from [st] to [st'] the strength did not decrease, a
    committed direction was not changed, and reasons and entry
    descriptions were only appended. *)
Definition keeps (st st' : Score) : Prop :=
  signal_strength st <= signal_strength st'
  /\ (forall d, signal_direction st = Some d -> signal_direction st' = Some d)
  /\ (exists more, technical_reasons st' = technical_reasons st ++ more)
  /\ (exists more, entry_signals st' = entry_signals st ++ more).

(** [bump w st st']: from [st] to [st'] either nothing was added, or one
    reason with a weight between 10 and [w] (and at most one entry
    description). *)
Definition bump (w : Z) (st st' : Score) : Prop :=
  (signal_strength st' = signal_strength st
   /\ length (technical_reasons st') = length (technical_reasons st)
   /\ length (entry_signals st') = length (entry_signals st))
  \/ (10 <= signal_strength st' - signal_strength st <= w
      /\ length (technical_reasons st') = S (length (technical_reasons st))
      /\ (length (entry_signals st') <= S (length (entry_signals st)))%nat).




(** The market-data cache maps a key to the frame and the time it was
    stored. *)
Abbreviation Cache := (gmap string (DataFrame * datetime)).

Section Engine.
Context `{Ops}.
(** [np.random.randint(lo, hi)]: the random source. *)
Variable randint : Z -> Z -> Z.
(** [yf.Ticker(symbol).history(period, interval)]: the data provider. *)
Variable history : string -> string -> string -> outcome DataFrame.

(** [analyze_short_term_momentum] *)
Definition analyze_short_term_momentum_body (df : DataFrame)
  : outcome MomentumAnalysis :=
  if bool_decide (df_len df < 10)%nat
  then Return {| momentum := Neutral; strength := 0 |}
  else
    close ← column df "Close";
    let recent_prices := tail 5 close in
    p_last ← iloc_neg recent_prices 1;
    p_first ← iloc_0 recent_prices;
    let price_change := ((p_last - p_first) / p_first * 100)%float in
    volume_ratio ←
      (if has_column df "Volume" then
         volume ← column df "Volume";
         let recent_volume := series_mean (tail 3 volume) in
         let avg_volume := series_mean (tail 10 volume) in
         mret (if fgt avg_volume 0 then (recent_volume / avg_volume)%float
               else 1%float)
       else Return 1%float);
    if fgt price_change 0.02 && fgt volume_ratio 1.2 then
      Return {| momentum := Strong_Bullish;
                strength := fmin (PrimFloat.abs price_change * volume_ratio) 100 |}
    else if flt price_change (-0.02) && fgt volume_ratio 1.2 then
      Return {| momentum := Strong_Bearish;
                strength := fmin (PrimFloat.abs price_change * volume_ratio) 100 |}
    else if fgt price_change 0.01 then
      Return {| momentum := Bullish;
                strength := fmin (PrimFloat.abs price_change * 50) 100 |}
    else if flt price_change (-0.01) then
      Return {| momentum := Bearish;
                strength := fmin (PrimFloat.abs price_change * 50) 100 |}
    else Return {| momentum := Neutral; strength := 0 |}.

Definition analyze_short_term_momentum (df : DataFrame) : MomentumAnalysis :=
  match analyze_short_term_momentum_body df with
  | Return m => m
  | Raise _ => {| momentum := Neutral; strength := 0 |}
  end.

(** 6. Volume confirmation: adds weight and a reason, never a direction;
    [df["Volume"]] raises when the column is missing. *)
Definition rule_volume (df : DataFrame) (st : Score) : outcome Score :=
  if bool_decide (20 < df_len df)%nat then
    volume ← column df "Volume";
    let recent_volume := series_mean (tail 3 volume) in
    let avg_volume := series_mean (tail 20 volume) in
    if fgt recent_volume (avg_volume * 1.8)%float then
      mret {|
        signal_strength := signal_strength st + 20;
        signal_direction := signal_direction st;
        technical_reasons := technical_reasons st ++ ["Exceptional volume surge"];
        entry_signals := entry_signals st ++ ["High volume confirmation"]
      |}
    else if fgt recent_volume (avg_volume * 1.3)%float then
      mret {|
        signal_strength := signal_strength st + 10;
        signal_direction := signal_direction st;
        technical_reasons := technical_reasons st ++ ["Above average volume"];
        entry_signals := entry_signals st
      |}
    else mret st
  else mret st.

(** The rule battery in its order of evaluation, on the values read. *)
Definition battery (df : DataFrame) (v : Latest) (env : Env) : outcome Score :=
  let momentum_analysis := analyze_short_term_momentum df in
  let st := rule_rsi v initial in
  let st := rule_bollinger v st in
  let st := rule_ma v st in
  let st := rule_macd v st in
  let st := rule_momentum momentum_analysis st in
  st ← rule_volume df st;
  mret (rule_news env st).

(** The locals of the scorer when it reaches its acceptance test. *)
Definition score (df : DataFrame) (indicators : gmap string Series)
    (env : Env) : outcome Score :=
  v ← read_latest df indicators;
  battery df v env.

(** [_calculate_optimal_entry_timing] *)
Definition _calculate_optimal_entry_timing_body (df : DataFrame)
  : outcome Z :=
  close ← column df "Close";
  let recent_prices := tail 5 close in
  p1 ← iloc_neg recent_prices 1;
  p3 ← iloc_neg recent_prices 3;
  let price_velocity := ((p1 - p3) / p3)%float in
  if fgt (PrimFloat.abs price_velocity) 0.001
  then Return (randint 5 15)
  else Return (randint 25 40).

Definition _calculate_optimal_entry_timing (df : DataFrame) : Z :=
  match _calculate_optimal_entry_timing_body df with
  | Return d => d
  | Raise _ => 15
  end.

(** [symbol.replace('=X', '')] *)
Fixpoint remove_eqX (s : string) : string :=
  match s with
  | EmptyString => EmptyString
  | String c r =>
      match r with
      | String c' r' =>
          if Ascii.eqb c "="%char && Ascii.eqb c' "X"%char
          then remove_eqX r'
          else String c (remove_eqX r)
      | EmptyString => String c EmptyString
      end
  end.

Definition format_pair (df : DataFrame) : string :=
  let symbol := default "UNKNOWN"%string (attrs df !! "symbol"%string) in
  let symbol := remove_eqX symbol in
  if bool_decide (6 <= String.length symbol)%nat
  then (substring 0 3 symbol ++ "/" ++ substring 3 3 symbol)%string
  else symbol.

Definition expiry_of (timeframe : string) (session_info : SessionInfo) : Z :=
  if String.eqb timeframe "1m" then
    if bool_decide (volatility session_info = High) then 1 else 2
  else if String.eqb timeframe "5m" then
    if bool_decide (volatility session_info = High) then 5 else 10
  else 15.

(** The acceptance test and the signal built on acceptance. *)
Definition accept (df : DataFrame) (v : Latest) (st : Score)
    (confidence_threshold : Z) (timeframe : string) (env : Env)
  : option Signal :=
  let session_info := get_market_session env in
  let confidence := Z.min (signal_strength st) 100 in
  let min_confirmations : nat :=
    if String.eqb timeframe "M1" then 2%nat else 1%nat in
  match signal_direction st with
  | Some d =>
      if bool_decide (confidence_threshold <= confidence)
         && bool_decide (min_confirmations <= length (technical_reasons st))%nat
      then
        let expiry_minutes := expiry_of timeframe session_info in
        Some {|
          pair := format_pair df;
          direction := d;
          confidence := confidence;
          reason := String.concat " + " (take 3 (technical_reasons st));
          entry_timing := String.concat " + " (take 2 (entry_signals st));
          timeframe := ("M" ++ pretty expiry_minutes)%string;
          expiry_minutes := expiry_minutes;
          entry_delay_seconds := _calculate_optimal_entry_timing df;
          timestamp := now env;
          rsi := latest_rsi v;
          macd := latest_macd v;
          price := latest_close v;
          session_volatility := volatility session_info
        |}
      else None
  | None => None
  end.

(** [generate_binary_trading_signal]: the body of the [try], and the
    function with its [except Exception: return None]. *)
Definition generate_binary_trading_signal_body (data : option DataFrame)
    (indicators : gmap string Series) (confidence_threshold : Z)
    (timeframe : string) (env : Env) : outcome (option Signal) :=
  match data with
  | None => Return None
  | Some df =>
      if df_empty df || bool_decide (indicators = ∅)
         || bool_decide (df_len df < 50)%nat
      then Return None
      else
        v ← read_latest df indicators;
        st ← battery df v env;
        mret (accept df v st confidence_threshold timeframe env)
  end.

Definition generate_binary_trading_signal (data : option DataFrame)
    (indicators : gmap string Series) (confidence_threshold : Z)
    (timeframe : string) (env : Env) : outcome (option Signal) :=
  try_except
    (generate_binary_trading_signal_body data indicators
       confidence_threshold timeframe env)
    (fun _ => Return None).

(** [get_market_data] *)

Definition cache_timeout : Z := 60.

Definition cache_key (symbol interval period : string) : string :=
  (symbol ++ "_" ++ interval ++ "_" ++ period)%string.

Record Fetched : Type := {
  returned : option DataFrame;
  cache_after : Cache;
  refetched : bool
}.

Definition intraday : list string :=
  ["1m"; "2m"; "5m"; "15m"; "30m"; "60m"; "90m"]%string.

Definition history_period (interval : string) : string :=
  if bool_decide (interval ∈ intraday) then "1d"%string
  else if bool_decide (interval ∈ ["1h"%string]) then "5d"%string
  else "1mo"%string.

(** The cached frame, when the key is present and the entry passes the
    freshness test of the code. *)
Definition cache_hit (cache : Cache) (key : string) (current_time : datetime)
  : option DataFrame :=
  match cache !! key with
  | Some (cache_data, cache_time) =>
      if bool_decide
           (seconds (datetime_sub current_time cache_time) < cache_timeout)
      then Some cache_data
      else None
  | None => None
  end.

Definition get_market_data (cache : Cache) (symbol interval period : string)
    (current_time : datetime) : Fetched :=
  let key := cache_key symbol interval period in
  match cache_hit cache key current_time with
  | Some cache_data =>
      {| returned := Some cache_data; cache_after := cache; refetched := false |}
  | None =>
      match history symbol (history_period interval) interval with
      | Raise _ =>
          {| returned := None; cache_after := cache; refetched := true |}
      | Return data =>
          if df_empty data
          then {| returned := None; cache_after := cache; refetched := true |}
          else {| returned := Some data;
                  cache_after := <[key := (data, current_time)]> cache;
                  refetched := true |}
      end
  end.

(** [calculate_indicators]; [pct_change] is [Series.pct_change()]. *)
Variable pct_change : Series -> outcome Series.

Definition indicator_names : gset string :=
  list_to_set
    ["RSI"; "MA_Short"; "MA_Long"; "MACD"; "MACD_Signal"; "MACD_Hist";
     "BB_Upper"; "BB_Middle"; "BB_Lower"; "Volume_SMA"; "Price_Change";
     "BB_Position"]%string.

Definition calculate_indicators_body (data : option DataFrame)
    (rsi_period short_period long_period : Z)
  : outcome (gmap string pyobj) :=
  match data with
  | None => Return ∅
  | Some df =>
      if df_empty df then Return ∅
      else
        close ← column df "Close";
        rsi_series ← TechnicalIndicators.calculate_rsi (ObjSeries close) rsi_period;
        let indicators : gmap string pyobj := <["RSI" := rsi_series]> ∅ in
        sma_short ←
          TechnicalIndicators.calculate_sma (ObjSeries close) short_period;
        let indicators := <["MA_Short" := sma_short]> indicators in
        sma_long ←
          TechnicalIndicators.calculate_sma (ObjSeries close) long_period;
        let indicators := <["MA_Long" := sma_long]> indicators in
        macd_data ← TechnicalIndicators.calculate_macd (ObjSeries close) 12 26 9;
        let indicators := macd_data ∪ indicators in
        bb_data ←
          TechnicalIndicators.calculate_bollinger_bands (ObjSeries close) 20
            2%float;
        let indicators := bb_data ∪ indicators in
        volume ← column df "Volume";
        volume_sma ← TechnicalIndicators.calculate_sma (ObjSeries volume) 20;
        let indicators := <["Volume_SMA" := volume_sma]> indicators in
        change ← pct_change close;
        let indicators := <["Price_Change" := ObjSeries change]> indicators in
        match indicators !! "BB_Upper", indicators !! "BB_Lower" with
        | Some upper, Some lower =>
            num ← arith Sub (ObjSeries close) lower;
            den ← arith Sub upper lower;
            position ← arith Div num den;
            mret (<["BB_Position" := position]> indicators)
        | _, _ => mret indicators
        end
  end.

Definition calculate_indicators (data : option DataFrame)
    (rsi_period short_period long_period : Z) : gmap string pyobj :=
  match calculate_indicators_body data rsi_period short_period long_period with
  | Return indicators => indicators
  | Raise _ => ∅
  end.

End Engine.
End TradingEngine.

(* ================================================================== *)
(** ** signal_manager.py *)
(* ================================================================== *)

Module SignalManager.

(** The JSON codec and the ISO-8601 codec of [datetime], as the standard
    library provides them.  [text] is what a file holds; [json_dump]
    gives the text written to the file, or raises after having written
    [json_partial]. *)
Class Codec : Type := {
  text : Type;
  json_dump : list pydict -> outcome text;
  json_partial : list pydict -> text;
  json_load : text -> outcome (list pydict);
  isoformat : datetime -> string;
  fromisoformat : string -> outcome datetime
}.

(** A value [json.dump] writes and [json.load] reads back as it was. *)
Definition json_value (v : pyval) : Prop :=
  match v with
  | PDatetime _ | PObject _ => False
  | _ => True
  end.

(** The contract of the two codecs: a document of JSON values is read
    back as written, and [fromisoformat] inverts [isoformat]. *)
Class CodecLaws `{Codec} : Prop := {
  json_roundtrip : forall doc : list pydict,
    Forall (map_Forall (fun _ v => json_value v)) doc ->
    exists t, json_dump doc = Return t /\ json_load t = Return doc;
  iso_roundtrip : forall t : datetime, fromisoformat (isoformat t) = Return t
}.

Definition max_signals_per_hour : nat := 3.

Section Store.
Context `{Codec}.

(** The manager: the history in memory and [signal_history.json]
    ([None]: the file does not exist). *)
Record Manager : Type := {
  signals : list pydict;
  signals_file : option text
}.

(** [_load_signals] *)
Definition load_entry (signal : pydict) : outcome pydict :=
  ts ← getitem signal "timestamp";
  match ts with
  | PStr s => t ← fromisoformat s; mret (<["timestamp" := PDatetime t]> signal)
  | _ => Raise TypeError
  end.

Definition _load_signals_body (file : option text) : outcome (list pydict) :=
  match file with
  | Some content => data ← json_load content; mapM load_entry data
  | None => Return []
  end.

Definition _load_signals (file : option text) : list pydict :=
  match _load_signals_body file with
  | Return data => data
  | Raise _ => []
  end.

(** [_save_signals]: the new content of the file. *)
Definition save_entry (signal : pydict) : outcome pydict :=
  ts ← getitem signal "timestamp";
  match ts with
  | PDatetime t => mret (<["timestamp" := PStr (isoformat t)]> signal)
  | _ => Raise AttributeError
  end.

Definition _save_signals (m : Manager) : Manager :=
  match mapM save_entry (signals m) with
  | Return data =>
      {| signals := signals m;
         signals_file :=
           Some match json_dump data with
                | Return content => content
                | Raise _ => json_partial data
                end |}
  | Raise _ => m
  end.

(** [_can_add_signal] at time [current_time]. *)
Definition is_recent (one_hour_ago : datetime) (signal : pydict)
  : outcome bool :=
  ts ← getitem signal "timestamp";
  match ts with
  | PDatetime t => Return (bool_decide (one_hour_ago < t))
  | _ => Raise TypeError
  end.

Fixpoint recent_signals (one_hour_ago : datetime) (l : list pydict)
  : outcome (list pydict) :=
  match l with
  | [] => Return []
  | signal :: rest =>
      keep ← is_recent one_hour_ago signal;
      tl ← recent_signals one_hour_ago rest;
      mret (if keep : bool then signal :: tl else tl)
  end.

Definition _can_add_signal_body (m : Manager) (current_time : datetime)
  : outcome bool :=
  let one_hour_ago := current_time - hours 1 in
  recent ← recent_signals one_hour_ago (signals m);
  mret (bool_decide (length recent < max_signals_per_hour)%nat).

Definition _can_add_signal (m : Manager) (current_time : datetime) : bool :=
  match _can_add_signal_body m current_time with
  | Return b => b
  | Raise _ => true
  end.

(** The log line of [add_signal] formats [direction], [pair] and, with
    [.1f], [confidence]: a number formats, a [datetime] takes the spec
    as a [strftime] pattern, a string or [None] raises. *)
Definition log_line (signal : pydict) : outcome unit :=
  _ ← getitem signal "direction";
  _ ← getitem signal "pair";
  c ← getitem signal "confidence";
  match c with
  | PInt _ | PFloat _ | PBool _ | PDatetime _ => Return tt
  | PStr _ => Raise ValueError
  | PNone | PObject _ => Raise TypeError
  end.

(** [add_signal]: the answer and the manager afterwards. *)
Definition add_signal (m : Manager) (signal : pydict) (current_time : datetime)
  : bool * Manager :=
  if negb (_can_add_signal m current_time) then (false, m)
  else
    let m1 := {| signals := take 100 (signal :: signals m);
                 signals_file := signals_file m |} in
    let m2 := _save_signals m1 in
    match log_line signal with
    | Return _ => (true, m2)
    | Raise _ => (false, m2)
    end.

(** [cleanup_old_signals] *)
Definition cleanup_old_signals (m : Manager) (day_count : Z)
    (current_time : datetime) : Manager :=
  match recent_signals (current_time - timedelta_days day_count) (signals m) with
  | Return kept =>
      _save_signals {| signals := kept; signals_file := signals_file m |}
  | Raise _ => m
  end.

(** [record] applied to a sequence of candidates, each at its own time:
    the answers in order and the manager at the end. *)
Fixpoint record_all (m : Manager) (l : list (pydict * datetime))
  : list bool * Manager :=
  match l with
  | [] => ([], m)
  | (signal, t) :: rest =>
      let '(ok, m1) := add_signal m signal t in
      let '(oks, m2) := record_all m1 rest in
      (ok :: oks, m2)
  end.

(** A stored entry whose [timestamp] is a [datetime]. *)
Definition has_datetime (signal : pydict) : Prop :=
  exists t, signal !! "timestamp" = Some (PDatetime t).

(** The entry was created within the hour that ends at [current_time]. *)
Definition within_last_hour (current_time : datetime) (signal : pydict)
  : bool :=
  match signal !! "timestamp" with
  | Some (PDatetime t) => bool_decide (current_time - hours 1 < t)
  | _ => false
  end.

(** The number of stored signals created within the trailing hour. *)
Definition count_recent (current_time : datetime) (l : list pydict) : nat :=
  length (List.filter (within_last_hour current_time) l).

(** A candidate the log line of [add_signal] can format. *)
Definition loggable (signal : pydict) : Prop :=
  is_Some (signal !! "direction")
  /\ is_Some (signal !! "pair")
  /\ exists c, signal !! "confidence" = Some c
               /\ match c with
                  | PInt _ | PFloat _ | PBool _ | PDatetime _ => True
                  | PNone | PStr _ | PObject _ => False
                  end.

(** A signal record as the scorer builds it: a [datetime] under
    [timestamp] and JSON values under every other key. *)
Definition storable (signal : pydict) : Prop :=
  has_datetime signal
  /\ map_Forall (fun k v => k <> "timestamp"%string -> json_value v) signal.


(** [l[:count]] *)
Definition slice_to {A} (l : list A) (count : Z) : list A :=
  if bool_decide (0 <= count) then take (Z.to_nat count) l
  else take (length l - Z.to_nat (- count))%nat l.

(** A list comprehension [[s for s in l if test(s)]] whose test may
    raise. *)
Fixpoint keep_where (test : pydict -> outcome bool) (l : list pydict)
  : outcome (list pydict) :=
  match l with
  | [] => Return []
  | signal :: rest =>
      keep ← test signal;
      tl ← keep_where test rest;
      mret (if keep : bool then signal :: tl else tl)
  end.

(** [get_recent_signals] *)
Definition get_recent_signals (m : Manager) (count : Z) : list pydict :=
  slice_to (signals m) count.

(** [get_signals_by_pair]; [upper] is [str.upper]. *)
Variable upper : string -> string.

Definition pair_matches (wanted : string) (signal : pydict) : outcome bool :=
  match signal !! "pair" with
  | None => Return (bool_decide (upper "" = upper wanted))
  | Some (PStr p) => Return (bool_decide (upper p = upper wanted))
  | Some _ => Raise AttributeError
  end.

Definition get_signals_by_pair (m : Manager) (wanted : string) (count : Z)
  : list pydict :=
  match keep_where (pair_matches wanted) (signals m) with
  | Return pair_signals => slice_to pair_signals count
  | Raise _ => []
  end.

(** [get_signals_today]: [t.date()] is the day [t] falls in. *)
Definition date (t : datetime) : Z := t / us_per_day.

Definition is_today (today : Z) (signal : pydict) : outcome bool :=
  ts ← getitem signal "timestamp";
  match ts with
  | PDatetime t => Return (bool_decide (date t = today))
  | _ => Raise AttributeError
  end.

Definition get_signals_today (m : Manager) (current_time : datetime)
  : list pydict :=
  match keep_where (is_today (date current_time)) (signals m) with
  | Return today_signals => today_signals
  | Raise _ => []
  end.

(** An entry [_load_signals] cannot convert: its [timestamp] is missing,
    is no string, or is a string [fromisoformat] rejects. *)
Definition unreadable (signal : pydict) : Prop :=
  match signal !! "timestamp" with
  | Some (PStr s) => raises (fromisoformat s)
  | _ => True
  end.

End Store.
End SignalManager.

(* ================================================================== *)
(** ** A plain implementation of the library interfaces *)
(* ================================================================== *)

(** Direct implementations of the pandas operations, of the random
    source and of the codecs, on which the definitions above can be run. *)
Module Reference.

Definition float_of_nat (n : nat) : float :=
  PrimFloat.of_uint63 (Uint63.of_Z (Z.of_nat n)).
Definition float_of_Z (z : Z) : float :=
  if bool_decide (0 <= z) then PrimFloat.of_uint63 (Uint63.of_Z z)
  else PrimFloat.opp (PrimFloat.of_uint63 (Uint63.of_Z (- z))).

Definition is_nan (x : float) : bool := negb (PrimFloat.eqb x x).

Definition fsum (l : list float) : float := foldl PrimFloat.add 0%float l.

(** The mean of the defined cells. *)
Definition mean_of (l : list float) : float :=
  let xs := List.filter (fun x => negb (is_nan x)) l in
  (fsum xs / float_of_nat (length xs))%float.

Definition min_of (l : list float) : float :=
  match l with
  | [] => PrimFloat.nan
  | x :: r => foldl (fun a b => if PrimFloat.ltb b a then b else a) x r
  end.

Definition max_of (l : list float) : float :=
  match l with
  | [] => PrimFloat.nan
  | x :: r => foldl (fun a b => if PrimFloat.ltb a b then b else a) x r
  end.

Definition std_of (l : list float) : float :=
  let m := mean_of l in
  let sq := fmap (fun x => ((x - m) * (x - m))%float) l in
  PrimFloat.sqrt (fsum sq / float_of_nat (length l - 1))%float.

Definition mad_of (l : list float) : float :=
  let m := mean_of l in
  mean_of (fmap (fun x => PrimFloat.abs (x - m)) l).

Definition rolling (agg : list float -> float) (s : Series) (w : Z)
  : outcome Series :=
  if bool_decide (w < 0) then Raise ValueError
  else
    Return
      (imap (fun i c =>
               (c.1,
                if bool_decide (Z.of_nat i + 1 < w) then PrimFloat.nan
                else agg (take (Z.to_nat w)
                            (drop (i + 1 - Z.to_nat w)%nat (values s)))))
            s).

(** Exponentially weighted mean, [adjust = True]. *)
Fixpoint ewm_from (decay num den : float) (s : Series) : Series :=
  match s with
  | [] => []
  | (i, x) :: r =>
      let num' := (x + decay * num)%float in
      let den' := (1 + decay * den)%float in
      (i, (num' / den')%float) :: ewm_from decay num' den' r
  end.

Definition ewm (s : Series) (span : Z) : outcome Series :=
  if bool_decide (span < 1) then Raise ValueError
  else
    let alpha := (2 / (float_of_Z span + 1))%float in
    Return (ewm_from (1 - alpha)%float 0%float 0%float s).

Definition shift (s : Series) (n : Z) : outcome Series :=
  if bool_decide (n < 0) then Raise ValueError
  else
    let k := Z.to_nat n in
    let vs := replicate k PrimFloat.nan ++ take (length s - k)%nat (values s) in
    Return (zip (index s) vs).

Definition diff (s : Series) : outcome Series :=
  prev ← shift s 1;
  mret (zip_with (fun c p => (c.1, (c.2 - p.2)%float)) s prev).

Definition apply (op : binop) (a b : float) : float :=
  match op with
  | Add => (a + b)%float
  | Sub => (a - b)%float
  | Mul => (a * b)%float
  | Div => (a / b)%float
  end.

Definition on_series (f : float -> float) (o : pyobj) : outcome pyobj :=
  match o with
  | ObjSeries s => Return (ObjSeries (fmap (fun c => (c.1, f c.2)) s))
  | ObjNone | ObjList _ => Raise TypeError
  end.

(** Two series with one index, cell by cell; this implementation does
    not align differing indexes. *)
Definition aligned (f : float -> float -> float) (a b : pyobj)
  : outcome pyobj :=
  match a, b with
  | ObjSeries s1, ObjSeries s2 =>
      if bool_decide (index s1 = index s2)
      then Return (ObjSeries (zip_with (fun c d => (c.1, f c.2 d.2)) s1 s2))
      else Raise ValueError
  | _, _ => Raise TypeError
  end.

Fixpoint row_max (l : list pyobj) : outcome pyobj :=
  match l with
  | [] => Raise ValueError
  | [o] => on_series (fun x => x) o
  | o :: r =>
      m ← row_max r;
      aligned (fun a b => if PrimFloat.ltb a b then b else a) o m
  end.

Definition ops : Ops := {|
  series_mean := fun s => mean_of (values s);
  rolling_mean := rolling mean_of;
  rolling_std := rolling std_of;
  rolling_min := rolling min_of;
  rolling_max := rolling max_of;
  rolling_mad := rolling mad_of;
  ewm_mean := ewm;
  series_diff := diff;
  series_shift := shift;
  where_gt0 := fun s =>
    Return (fmap (fun c => (c.1, if fgt c.2 0 then c.2 else 0%float)) s);
  where_lt0 := fun s =>
    Return (fmap (fun c => (c.1, if flt c.2 0 then c.2 else 0%float)) s);
  series_abs := on_series PrimFloat.abs;
  series_neg := on_series PrimFloat.opp;
  arith := fun op => aligned (apply op);
  arith_scalar_l := fun op x => on_series (fun y => apply op x y);
  arith_scalar_r := fun op o x => on_series (fun y => apply op y x) o;
  concat_max := row_max
|}.

(** A random source that always draws the lower bound, and a provider
    that is offline. *)
Definition randint (lo hi : Z) : Z := lo.
Definition history (symbol period interval : string) : outcome DataFrame :=
  Raise OtherError.

(** A stand-in for the two codecs: a file holds the document itself, and
    a [datetime] is written as a sign followed by its binary digits,
    lowest first. *)
Definition json_ok (v : pyval) : bool :=
  match v with
  | PDatetime _ | PObject _ => false
  | _ => true
  end.

Definition doc_ok (doc : list pydict) : bool :=
  forallb (fun d => forallb (fun kv => json_ok kv.2) (map_to_list d)) doc.

Fixpoint bits (p : positive) : string :=
  match p with
  | xH => "1"
  | xO q => String "0" (bits q)
  | xI q => String "1" (bits q)
  end.

Fixpoint unbits (s : string) : option positive :=
  match s with
  | EmptyString => None
  | String c r =>
      match r with
      | EmptyString => if Ascii.eqb c "1" then Some xH else None
      | String _ _ =>
          match unbits r with
          | Some q =>
              if Ascii.eqb c "0" then Some (xO q)
              else if Ascii.eqb c "1" then Some (xI q)
              else None
          | None => None
          end
      end
  end.

Definition iso (t : datetime) : string :=
  match t with
  | Z0 => "0"
  | Zpos p => String "+" (bits p)
  | Zneg p => String "-" (bits p)
  end.

Definition uniso (s : string) : outcome datetime :=
  match s with
  | EmptyString => Raise ValueError
  | String c r =>
      if Ascii.eqb c "0" then
        match r with
        | EmptyString => Return 0
        | String _ _ => Raise ValueError
        end
      else
        match unbits r with
        | Some p =>
            if Ascii.eqb c "+" then Return (Zpos p)
            else if Ascii.eqb c "-" then Return (Zneg p)
            else Raise ValueError
        | None => Raise ValueError
        end
  end.

Definition codec : SignalManager.Codec := {|
  SignalManager.text := list pydict;
  SignalManager.json_dump := fun doc =>
    if doc_ok doc then Return doc else Raise TypeError;
  SignalManager.json_partial := fun _ => [];
  SignalManager.json_load := fun doc => Return doc;
  SignalManager.isoformat := iso;
  SignalManager.fromisoformat := uniso
|}.

End Reference.

(* ================================================================== *)
(** ** Concrete inputs *)
(* ================================================================== *)

Module Examples.
Import TradingEngine.

Definition bar (close volume : float) : string -> float :=
  fun c => if String.eqb c "Close" then close else volume.

(** [n] equal bars labelled from [start]. *)
Definition flat (start : Z) (n : nat) (close volume : float)
  : list (Z * (string -> float)) :=
  imap (fun i _ => (start + Z.of_nat i, bar close volume)) (replicate n tt).

Definition frame (cols : list string) (rs : list (Z * (string -> float)))
  : DataFrame :=
  {| columns := cols; rows := rs; attrs := {["symbol" := "EURUSD=X"]}%string |}.

Definition ohlcv : list string := ["Open"; "High"; "Low"; "Close"; "Volume"]%string.

Definition calm : Env :=
  {| utc_hour := 10; pytz_importable := true;
     news_sentiment := Return 0%float; now := 1000 |}.

(** Fifty bars ending in a fall from 1.0 to 0.9 through a lower band at
    0.95, with an RSI of 15. *)
Definition falling : DataFrame :=
  frame ohlcv (flat 0 49 1%float 100%float ++ [(49, bar 0.9%float 100%float)]).

Definition oversold_breakdown : gmap string Series :=
  list_to_map
    [("RSI", [(49, 15%float)]); ("BB_Upper", [(49, 1.1%float)]);
     ("BB_Lower", [(49, 0.95%float)])]%string.

(** Fifty bars ending in a rise from 1.0 to 1.2 through an upper band at
    1.1, with an RSI of 15 and the short average crossing the long one. *)
Definition rising : DataFrame :=
  frame ohlcv (flat 0 49 1%float 100%float ++ [(49, bar 1.2%float 100%float)]).

Definition oversold_breakout_cross : gmap string Series :=
  list_to_map
    [("RSI", [(49, 15%float)]); ("BB_Upper", [(49, 1.1%float)]);
     ("BB_Lower", [(49, 0.9%float)]);
     ("MA_Short", [(48, 1%float); (49, 1.1%float)]);
     ("MA_Long", [(48, 1%float); (49, 1.05%float)])]%string.

(** Forty-nine bars, and fifty bars without a volume column. *)
Definition short_history : DataFrame := frame ohlcv (flat 0 49 1%float 100%float).
Definition no_volume : DataFrame :=
  frame ["Close"%string] (flat 0 50 1%float 100%float).

(** Signals as the scorer hands them to the store, a dict without a
    [timestamp], and one without a [direction]. *)
Definition minute : Z := 60 * us_per_second.

Definition signal_at (t : datetime) : pydict :=
  list_to_map
    [("pair", PStr "EUR/USD"); ("direction", PStr "BUY");
     ("confidence", PInt 90); ("reason", PStr "RSI oversold reversal");
     ("rsi", PFloat 25.5%float); ("timestamp", PDatetime t)]%string.

Definition no_timestamp : pydict :=
  list_to_map
    [("pair", PStr "EUR/USD"); ("direction", PStr "BUY");
     ("confidence", PInt 90)]%string.

Definition no_direction (t : datetime) : pydict :=
  list_to_map
    [("pair", PStr "EUR/USD"); ("confidence", PInt 90);
     ("timestamp", PDatetime t)]%string.

Definition manager (l : list pydict) : SignalManager.Manager (H := Reference.codec) :=
  {| SignalManager.signals := l; SignalManager.signals_file := None |}.

(** Noon of some day, three signals of the last half hour, and the same
    history with an entry that has no timestamp. *)
Definition noon : datetime := 720 * minute.

Definition busy : list pydict :=
  [signal_at (noon - 10 * minute); signal_at (noon - 20 * minute);
   signal_at (noon - 30 * minute)].

Definition busy_with_stray : list pydict := no_timestamp :: busy.

(** 105 candidates, one every half hour, each recorded when created. *)
Definition half_hourly : list (pydict * datetime) :=
  imap (fun i _ => let t := Z.of_nat i * 30 * minute in (signal_at t, t))
       (replicate 105 tt).

(** A day-old cache entry for EURUSD=X at one-minute bars. *)
Definition stale_cache : TradingEngine.Cache :=
  {[ "EURUSD=X_1m_1d"%string := (rising, noon) ]}.

(** Fifty flat bars, the values read from them when no indicator moved,
    and the values of an oversold reading with nothing else. *)
Definition flat50 : DataFrame := frame ohlcv (flat 0 50 1%float 100%float).

Definition neutral : gmap string Series :=
  list_to_map [("RSI", [(49, 50%float)])]%string.

Definition quiet_latest : TradingEngine.Latest := {|
  TradingEngine.latest_close := 1; TradingEngine.previous_close := 1;
  TradingEngine.latest_rsi := 50; TradingEngine.latest_macd := 0;
  TradingEngine.latest_macd_signal := 0; TradingEngine.ma_short := 1;
  TradingEngine.ma_long := 1; TradingEngine.bb_upper := 1;
  TradingEngine.bb_lower := 1; TradingEngine.bb_position := 0.5;
  TradingEngine.prev_ma_short := 1; TradingEngine.prev_ma_long := 1;
  TradingEngine.prev_macd := 0; TradingEngine.prev_macd_signal := 0
|}.

Definition oversold_latest : TradingEngine.Latest := {|
  TradingEngine.latest_close := 1; TradingEngine.previous_close := 1;
  TradingEngine.latest_rsi := 25; TradingEngine.latest_macd := 0;
  TradingEngine.latest_macd_signal := 1; TradingEngine.ma_short := 1;
  TradingEngine.ma_long := 2; TradingEngine.bb_upper := 1;
  TradingEngine.bb_lower := 1; TradingEngine.bb_position := 0.5;
  TradingEngine.prev_ma_short := 2; TradingEngine.prev_ma_long := 2;
  TradingEngine.prev_macd := 1; TradingEngine.prev_macd_signal := 1
|}.

(** A provider that answers every request with the rising frame, and
    one whose frames are empty. *)
Definition online (symbol period interval : string) : outcome DataFrame :=
  Return rising.

Definition empty_frame : DataFrame := frame ohlcv [].

Definition barren (symbol period interval : string) : outcome DataFrame :=
  Return empty_frame.

(** A history with an entry whose pair is no string, and a file content
    with an entry whose timestamp is no ISO text. *)
Definition odd_pair : pydict :=
  list_to_map
    [("pair", PInt 7); ("direction", PStr "BUY"); ("confidence", PInt 90);
     ("timestamp", PDatetime noon)]%string.

Definition garbled : pydict :=
  list_to_map
    [("pair", PStr "EUR/USD"); ("timestamp", PStr "yesterday")]%string.

(** ASCII upper case, standing in for [str.upper]. *)
Definition upper_char (c : ascii) : ascii :=
  let n := Ascii.nat_of_ascii c in
  if bool_decide (97 <= n <= 122)%nat then Ascii.ascii_of_nat (n - 32) else c.

Fixpoint ascii_upper (s : string) : string :=
  match s with
  | EmptyString => EmptyString
  | String c r => String (upper_char c) (ascii_upper r)
  end.

(** A percentage change that is undefined everywhere. *)
Definition no_change (s : Series) : outcome Series :=
  Return (nan_series (index s)).

End Examples.

(* ================================================================== *)
(** ** The signal scorer *)
(* ================================================================== *)

Section ScorerFacts.
Import TradingEngine.
Context `{Ops}.
Variable randint : Z -> Z -> Z.

Lemma keeps_refl st : keeps st st.
Proof.
  repeat split; [lia | auto | exists [] | exists []]; by rewrite app_nil_r.
Qed.

Lemma keeps_trans a b c : keeps a b -> keeps b c -> keeps a c.
Proof.
  intros (Hs & Hd & [r Hr] & [e He]) (Hs' & Hd' & [r' Hr'] & [e' He']).
  repeat split; [lia | auto | exists (r ++ r') | exists (e ++ e')].
  - by rewrite Hr', Hr, app_assoc.
  - by rewrite He', He, app_assoc.
Qed.

Ltac keeps_step :=
  first
    [ apply keeps_refl
    | repeat split; simpl;
      [ lia
      | congruence || auto
      | (by eexists) || (exists []; by rewrite app_nil_r)
      | (by eexists) || (exists []; by rewrite app_nil_r) ] ].

Lemma guarded_keeps w d why entry st :
  0 <= w -> keeps st (guarded w d why entry st).
Proof.
  intros Hw. unfold guarded, agrees.
  destruct (signal_direction st) as [d'|] eqn:Hd.
  - case_bool_decide as Heq; [subst d'|apply keeps_refl]. keeps_step.
  - keeps_step.
Qed.

(** A guarded rule that finds the opposite direction committed leaves
    the score as it is. *)
Lemma guarded_conflict w d d' why entry st :
  signal_direction st = Some d' -> d' <> d -> guarded w d why entry st = st.
Proof.
  intros Hd Hne. unfold guarded, agrees. rewrite Hd.
  by rewrite bool_decide_eq_false_2.
Qed.

Lemma rule_ma_keeps v st : keeps st (rule_ma v st).
Proof.
  unfold rule_ma.
  repeat (case_match; try (apply guarded_keeps; lia)).
  apply keeps_refl.
Qed.

Lemma rule_macd_keeps v st : keeps st (rule_macd v st).
Proof.
  unfold rule_macd.
  repeat (case_match; try (apply guarded_keeps; lia)).
  apply keeps_refl.
Qed.

Lemma rule_momentum_keeps m st : keeps st (rule_momentum m st).
Proof.
  unfold rule_momentum.
  repeat (case_match; try (apply guarded_keeps; lia)).
  apply keeps_refl.
Qed.

Lemma rule_volume_keeps df st st' :
  rule_volume df st = Return st' -> keeps st st'.
Proof.
  unfold rule_volume. case_bool_decide.
  - destruct (column df "Volume") as [vol|]; simpl; [|discriminate].
    repeat case_match; intros [= <-]; keeps_step.
  - intros [= <-]. apply keeps_refl.
Qed.

Lemma rule_news_keeps env st : keeps st (rule_news env st).
Proof.
  unfold rule_news. destruct (news_sentiment env); [|apply keeps_refl].
  repeat case_match; try apply keeps_refl;
    try match goal with
        | Hn : bool_decide (_ = None) = true |- _ =>
            apply bool_decide_eq_true in Hn
        end;
    keeps_step.
Qed.

(** The Bollinger rule has no such guard: a fresh breakdown commits SELL
    over whatever direction was there. *)
Lemma rule_bollinger_breakdown v st :
  fgt (latest_close v) (bb_upper v) && fle (previous_close v) (bb_upper v)
    = false ->
  flt (latest_close v) (bb_lower v) = true ->
  fge (previous_close v) (bb_lower v) = true ->
  rule_bollinger v st
  = trigger 35 SELL "Bollinger Band breakdown" "Fresh breakdown confirmed" st.
Proof.
  intros H1 H2 H3. unfold rule_bollinger. by rewrite H1, H2, H3.
Qed.

(** With BUY committed, a fresh bearish MA cross is skipped: no weight,
    no reason, no change of direction. *)
Lemma bearish_cross_after_buy_is_skipped v st :
  signal_direction st = Some BUY ->
  fgt (ma_short v) (ma_long v) && fle (prev_ma_short v) (prev_ma_long v)
    = false ->
  flt (ma_short v) (ma_long v) = true ->
  fge (prev_ma_short v) (prev_ma_long v) = true ->
  rule_ma v st = st.
Proof.
  intros Hd H1 H2 H3. unfold rule_ma. rewrite H1, H2, H3. simpl.
  by apply (guarded_conflict _ _ BUY).
Qed.

End ScorerFacts.

Section ScorerClaims.
Import TradingEngine.
Context `{Ops}.
Variable randint : Z -> Z -> Z.

Lemma float_50_is_not_15 : 50%float <> 15%float.
Proof.
  intros E. apply (f_equal (fun x => flt x 20)) in E. discriminate E.
Qed.

Lemma read_latest_rsi df indicators v :
  read_latest df indicators = Return v ->
  latest_rsi v = ind_last indicators "RSI" 50%float.
Proof.
  unfold read_latest.
  destruct (column df "Close") as [close|]; simpl; [|discriminate].
  destruct (iloc_neg close 1) as [c1|]; simpl; [|discriminate].
  destruct (if bool_decide (1 < df_len df)%nat then iloc_neg close 2
            else Return c1) as [c2|]; simpl; [|discriminate].
  by intros [= <-].
Qed.

Lemma read_latest_has_close df indicators v :
  read_latest df indicators = Return v -> has_column df "Close" = true.
Proof.
  unfold read_latest, column.
  destruct (has_column df "Close"); [done|discriminate].
Qed.

Lemma df_empty_false df name :
  (0 < df_len df)%nat -> has_column df name = true -> df_empty df = false.
Proof.
  unfold df_len, df_empty, has_column. intros Hlen Hcol.
  apply bool_decide_eq_true in Hcol.
  destruct (rows df); [simpl in Hlen; lia|].
  destruct (columns df); [by apply elem_of_nil in Hcol|done].
Qed.

Lemma rule_volume_returns df st :
  has_column df "Volume" = true -> exists st', rule_volume df st = Return st'.
Proof.
  intros Hv. unfold rule_volume, column. rewrite Hv. simpl.
  repeat case_match; by eexists.
Qed.

(** The three rules of the scenario, one after the other. *)
Lemma rsi_breakout_cross v :
  latest_rsi v = 15%float ->
  fgt (latest_close v) (bb_upper v) = true ->
  fle (previous_close v) (bb_upper v) = true ->
  fgt (ma_short v) (ma_long v) = true ->
  fle (prev_ma_short v) (prev_ma_long v) = true ->
  rule_ma v (rule_bollinger v (rule_rsi v initial))
  = {| signal_strength := 100;
       signal_direction := Some BUY;
       technical_reasons :=
         ["RSI extreme oversold reversal"; "Bollinger Band breakout";
          "Fresh MA bullish cross"]%string;
       entry_signals :=
         ["Strong reversal setup"; "Fresh breakout confirmed";
          "Trend change confirmed"]%string |}.
Proof.
  intros Hr Hb1 Hb2 Hm1 Hm2.
  unfold rule_rsi. rewrite Hr.
  assert (flt 15 20 = true) as -> by reflexivity.
  unfold rule_bollinger. rewrite Hb1, Hb2. simpl.
  unfold rule_ma. rewrite Hm1, Hm2. reflexivity.
Qed.

(** C2: RSI = 15 with a fresh breakout above the upper band and a fresh
    bullish MA cross, on at least 50 candles: the accumulated strength is
    at least 100, the confidence is 100, the direction is BUY, the reason
    joins the three rule descriptions, and the signal is accepted for
    every threshold up to 100 and either timeframe's required reason
    count. *)
Theorem oversold_breakout_cross_is_accepted
    (df : DataFrame) (indicators : gmap string Series) (env : Env)
    (confidence_threshold : Z) (timeframe : string) (v : Latest) :
  (50 <= df_len df)%nat ->
  has_column df "Volume" = true ->
  read_latest df indicators = Return v ->
  latest_rsi v = 15%float ->
  fgt (latest_close v) (bb_upper v) = true ->
  fle (previous_close v) (bb_upper v) = true ->
  fgt (ma_short v) (ma_long v) = true ->
  fle (prev_ma_short v) (prev_ma_long v) = true ->
  confidence_threshold <= 100 ->
  exists st sig,
    score df indicators env = Return st
    /\ 100 <= signal_strength st
    /\ signal_direction st = Some BUY
    /\ generate_binary_trading_signal randint (Some df) indicators
         confidence_threshold timeframe env = Return (Some sig)
    /\ confidence sig = 100
    /\ direction sig = BUY
    /\ reason sig
       = ("RSI extreme oversold reversal + Bollinger Band breakout"
          ++ " + Fresh MA bullish cross")%string.
Proof.
  intros Hlen Hvol Hread Hrsi Hb1 Hb2 Hm1 Hm2 Hthr.
  pose proof (rsi_breakout_cross v Hrsi Hb1 Hb2 Hm1 Hm2) as H3.
  set (st3 := rule_ma v (rule_bollinger v (rule_rsi v initial))) in *.
  set (st5 := rule_momentum (analyze_short_term_momentum df)
                (rule_macd v st3)).
  destruct (rule_volume_returns df st5 Hvol) as [st6 Hst6].
  assert (keeps st3 (rule_news env st6)) as Hkeep.
  { eapply keeps_trans; [apply rule_macd_keeps|].
    eapply keeps_trans; [apply rule_momentum_keeps|].
    eapply keeps_trans; [by apply (rule_volume_keeps df)|].
    apply rule_news_keeps. }
  assert (battery df v env = Return (rule_news env st6)) as Hscore.
  { unfold battery. fold st3. fold st5. by rewrite Hst6. }
  destruct Hkeep as (Hs & Hd & [more Hmore] & _).
  rewrite H3 in Hs, Hd, Hmore. simpl in Hs, Hd, Hmore.
  specialize (Hd BUY eq_refl).
  assert (indicators <> ∅) as Hne.
  { intros ->. rewrite (read_latest_rsi _ _ _ Hread) in Hrsi.
    unfold ind_last, ind_series in Hrsi. rewrite lookup_empty in Hrsi.
    by apply float_50_is_not_15. }
  eexists (rule_news env st6), _.
  split; [unfold score; by rewrite Hread|].
  split; [done|]. split; [done|].
  unfold generate_binary_trading_signal, generate_binary_trading_signal_body.
  rewrite (df_empty_false df "Close"),
    (bool_decide_eq_false_2 _ Hne), (bool_decide_eq_false_2 (df_len df < 50)%nat);
    [|lia|lia|by eapply read_latest_has_close].
  cbn -[battery accept]. rewrite Hread. cbn -[battery accept].
  rewrite Hscore. cbn -[accept].
  unfold accept. rewrite Hd.
  rewrite (bool_decide_eq_true_2 (confidence_threshold <= _)); [|lia].
  rewrite bool_decide_eq_true_2.
  2:{ rewrite Hmore. simpl. destruct (String.eqb timeframe "M1"); lia. }
  simpl. split; [reflexivity|]. simpl.
  split; [lia|]. split; [done|].
  rewrite Hmore. reflexivity.
Qed.

(** C5: with absent data or fewer than 50 candles the scorer returns
    [None], whatever the indicators, the session and the sentiment. *)
Theorem fewer_than_50_bars_no_signal
    (data : option DataFrame) (indicators : gmap string Series) (env : Env)
    (confidence_threshold : Z) (timeframe : string) :
  (forall df, data = Some df -> (df_len df < 50)%nat) ->
  generate_binary_trading_signal randint data indicators
    confidence_threshold timeframe env = Return None.
Proof.
  intros Hshort.
  unfold generate_binary_trading_signal, generate_binary_trading_signal_body.
  destruct data as [df|]; [|done].
  rewrite (bool_decide_eq_true_2 (df_len df < 50)%nat) by auto.
  by rewrite orb_true_r.
Qed.

(** C6: the scorer never raises; an exception inside its body is turned
    into the result [None]. *)
Theorem scorer_never_raises
    (data : option DataFrame) (indicators : gmap string Series) (env : Env)
    (confidence_threshold : Z) (timeframe : string) :
  (exists r, generate_binary_trading_signal randint data indicators
               confidence_threshold timeframe env = Return r)
  /\ (raises (generate_binary_trading_signal_body randint data indicators
                confidence_threshold timeframe env) ->
      generate_binary_trading_signal randint data indicators
        confidence_threshold timeframe env = Return None).
Proof.
  unfold generate_binary_trading_signal, try_except, raises.
  destruct (generate_binary_trading_signal_body _ _ _ _ _ _) as [r|e].
  - split; [by eexists|]. intros [e' [=]].
  - split; [by eexists|done].
Qed.

End ScorerClaims.

(** The body does raise on inputs the scorer can be given: fifty bars
    without a volume column fail in the volume rule, and the caller sees
    [None]. *)
Lemma missing_volume_is_swallowed :
  TradingEngine.generate_binary_trading_signal_body (H := Reference.ops)
    Reference.randint (Some Examples.no_volume)
    Examples.oversold_breakout_cross 75 "1m" Examples.calm = Raise KeyError
  /\ TradingEngine.generate_binary_trading_signal (H := Reference.ops)
       Reference.randint (Some Examples.no_volume)
       Examples.oversold_breakout_cross 75 "1m" Examples.calm = Return None.
Proof. split; vm_compute; reflexivity. Qed.

(** The scenario of [oversold_breakout_cross_is_accepted] on fifty
    concrete bars. *)
Lemma oversold_breakout_cross_is_accepted_witness :
  exists st sig,
    TradingEngine.score (H := Reference.ops) Examples.rising
      Examples.oversold_breakout_cross Examples.calm = Return st
    /\ 100 <= TradingEngine.signal_strength st
    /\ TradingEngine.signal_direction st = Some TradingEngine.BUY
    /\ TradingEngine.generate_binary_trading_signal (H := Reference.ops)
         Reference.randint (Some Examples.rising)
         Examples.oversold_breakout_cross 100 "M1" Examples.calm
       = Return (Some sig)
    /\ TradingEngine.confidence sig = 100
    /\ TradingEngine.direction sig = TradingEngine.BUY
    /\ TradingEngine.reason sig
       = ("RSI extreme oversold reversal + Bollinger Band breakout"
          ++ " + Fresh MA bullish cross")%string.
Proof.
  eapply (oversold_breakout_cross_is_accepted (H := Reference.ops)
            Reference.randint Examples.rising Examples.oversold_breakout_cross
            Examples.calm 100 "M1").
  - vm_compute. lia.
  - reflexivity.
  - vm_compute. reflexivity.
  - reflexivity.
  - reflexivity.
  - reflexivity.
  - reflexivity.
  - reflexivity.
  - lia.
Defined.

(** Forty-nine bars give no signal. *)
Lemma fewer_than_50_bars_no_signal_witness :
  TradingEngine.generate_binary_trading_signal (H := Reference.ops)
    Reference.randint (Some Examples.short_history)
    Examples.oversold_breakout_cross 0 "1m" Examples.calm = Return None.
Proof.
  apply (fewer_than_50_bars_no_signal (H := Reference.ops)).
  intros df [= <-]. vm_compute. lia.
Defined.

(** C1: the Bollinger rule overwrites a committed direction.  With an
    RSI of 15 (BUY, weight 40) and a fresh breakdown below the lower
    band, the scorer returns a SELL signal of confidence 75 whose reason
    lists the BUY rule and the SELL rule together. *)
Theorem bollinger_breakdown_overwrites_rsi_buy :
  exists sig,
    TradingEngine.generate_binary_trading_signal (H := Reference.ops)
      Reference.randint (Some Examples.falling) Examples.oversold_breakdown
      75 "1m" Examples.calm = Return (Some sig)
    /\ TradingEngine.direction sig = TradingEngine.SELL
    /\ TradingEngine.confidence sig = 75
    /\ TradingEngine.reason sig
       = "RSI extreme oversold reversal + Bollinger Band breakdown"%string.
Proof.
  eexists. split; [vm_compute; reflexivity|]. by repeat split.
Qed.

(* ================================================================== *)
(** ** The rate-limited signal store *)
(* ================================================================== *)

Section StoreFacts.
Import SignalManager.
Context `{Codec}.

Lemma save_keeps_signals m : signals (_save_signals m) = signals m.
Proof. unfold _save_signals. by destruct (mapM save_entry (signals m)). Qed.

Lemma is_recent_datetime now signal :
  has_datetime signal ->
  is_recent (now - hours 1) signal = Return (within_last_hour now signal).
Proof.
  intros [t Ht]. unfold is_recent, within_last_hour, getitem.
  by rewrite Ht.
Qed.

Lemma is_recent_stray t signal :
  ~ has_datetime signal -> raises (is_recent t signal).
Proof.
  intros Hno. unfold is_recent, getitem, raises.
  destruct (signal !! "timestamp") as [[]|] eqn:E; simpl; try by eexists.
  destruct Hno. by eexists.
Qed.

Lemma recent_signals_datetimes now l :
  Forall has_datetime l ->
  recent_signals (now - hours 1) l
  = Return (List.filter (within_last_hour now) l).
Proof.
  induction 1 as [|signal l Hs _ IH]; [done|].
  simpl. rewrite (is_recent_datetime now signal Hs), IH. simpl.
  by destruct (within_last_hour now signal).
Qed.

Lemma recent_signals_stray t l :
  Exists (fun s => ~ has_datetime s) l -> raises (recent_signals t l).
Proof.
  induction 1 as [signal l Hs|signal l _ IH]; simpl.
  - destruct (is_recent_stray t signal Hs) as [e ->]. by exists e.
  - destruct (is_recent t signal); simpl; [|by eexists].
    destruct IH as [e ->]. by exists e.
Qed.

Lemma can_add_counts m now :
  Forall has_datetime (signals m) ->
  _can_add_signal m now
  = bool_decide (count_recent now (signals m) < max_signals_per_hour)%nat.
Proof.
  intros Hwf. unfold _can_add_signal, _can_add_signal_body.
  by rewrite (recent_signals_datetimes now _ Hwf).
Qed.

Lemma can_add_stray m now :
  Exists (fun s => ~ has_datetime s) (signals m) ->
  raises (_can_add_signal_body m now) /\ _can_add_signal m now = true.
Proof.
  intros Hs. unfold _can_add_signal, _can_add_signal_body, raises.
  destruct (recent_signals_stray (now - hours 1) _ Hs) as [e ->].
  split; [by exists e|done].
Qed.

Lemma log_line_loggable signal : loggable signal -> log_line signal = Return tt.
Proof.
  intros ([d Hd] & [p Hp] & c & Hc & Hfmt). unfold log_line, getitem.
  rewrite Hd, Hp, Hc. simpl. by destruct c.
Qed.

(** What [add_signal] does once the rate check has let the candidate
    through. *)
Lemma add_signal_passed m signal now :
  _can_add_signal m now = true ->
  signals (add_signal m signal now).2 = take 100 (signal :: signals m)
  /\ (loggable signal -> (add_signal m signal now).1 = true).
Proof.
  intros Hcan. unfold add_signal. rewrite Hcan. simpl. split.
  - destruct (log_line signal); simpl; by rewrite save_keeps_signals.
  - intros Hlog. by rewrite (log_line_loggable _ Hlog).
Qed.

Lemma add_signal_accepted m signal now :
  (add_signal m signal now).1 = true ->
  signals (add_signal m signal now).2 = take 100 (signal :: signals m).
Proof.
  intros Hok. destruct (_can_add_signal m now) eqn:Hcan.
  - by apply add_signal_passed.
  - unfold add_signal in Hok. by rewrite Hcan in Hok.
Qed.

(** An entry that leaves the window takes the count down. *)
Lemma count_recent_aged now later old t l :
  old ∈ l ->
  old !! "timestamp" = Some (PDatetime t) ->
  now - hours 1 < t -> t <= later - hours 1 -> now <= later ->
  (count_recent later l < count_recent now l)%nat.
Proof.
  intros Hin Hts Hnew Haged Hle. unfold count_recent.
  induction l as [|s l IH]; [by apply elem_of_nil in Hin|].
  assert (forall x, within_last_hour later x = true ->
                    within_last_hour now x = true) as Hmono.
  { intros x. unfold within_last_hour.
    destruct (x !! "timestamp") as [[]|]; try done.
    rewrite !bool_decide_eq_true. lia. }
  assert (length (List.filter (within_last_hour later) l)
          <= length (List.filter (within_last_hour now) l))%nat as Hweak.
  { clear IH Hin. induction l as [|x l IHl]; [done|]. simpl.
    destruct (within_last_hour later x) eqn:E.
    - rewrite (Hmono x E). simpl. lia.
    - destruct (within_last_hour now x); simpl; lia. }
  apply elem_of_cons in Hin as [<-|Hin]; simpl.
  - assert (within_last_hour later old = false) as ->.
    { unfold within_last_hour. rewrite Hts. apply bool_decide_eq_false. lia. }
    assert (within_last_hour now old = true) as ->.
    { unfold within_last_hour. rewrite Hts. by apply bool_decide_eq_true. }
    simpl. lia.
  - specialize (IH Hin).
    destruct (within_last_hour later s) eqn:E.
    + rewrite (Hmono s E). simpl. lia.
    + destruct (within_last_hour now s); simpl; lia.
Qed.

Lemma take_app_take {A} (n : nat) (a b : list A) :
  take n (a ++ take n b) = take n (a ++ b).
Proof.
  rewrite !take_app. f_equal. rewrite take_take. f_equal. lia.
Qed.

Lemma record_all_accepted m l :
  Forall (fun ok => ok = true) (record_all m l).1 ->
  signals (record_all m l).2 = take 100 (rev (l.*1) ++ signals m)
  \/ (l = [] /\ (record_all m l).2 = m).
Proof.
  revert m. induction l as [|[signal t] rest IH]; intros m Hall.
  { right. done. }
  left. simpl in *.
  destruct (add_signal m signal t) as [ok m1] eqn:Hadd.
  destruct (record_all m1 rest) as [oks m2] eqn:Hrest. simpl in *.
  apply Forall_cons in Hall as [-> Hall].
  pose proof (add_signal_accepted m signal t) as Hm1.
  rewrite Hadd in Hm1. simpl in Hm1. specialize (Hm1 eq_refl).
  specialize (IH m1). rewrite Hrest in IH. simpl in IH.
  destruct (IH Hall) as [IH'|[-> IH']].
  - rewrite IH', Hm1.
    change (signal :: take 99 (signals m))
      with (take 100 (signal :: signals m)).
    rewrite take_app_take. f_equal. simpl. by rewrite <- app_assoc.
  - subst m2. by rewrite Hm1.
Qed.

End StoreFacts.

Section StoreClaims.
Import SignalManager.
Context `{Codec}.

(** C3, for well-formed entries: on a history whose entries all carry a [datetime]
    timestamp, and for a candidate whose direction, pair and confidence
    the log line can format, [add_signal] answers [False] exactly when at
    least 3 stored signals were created within the trailing hour; a
    rejected call leaves the manager as it was, an accepted one prepends
    the candidate; and once one of at most 3 counted signals is an hour
    old, the call is accepted. *)
Theorem add_signal_rate_limit (m : Manager) (signal : pydict) (now : datetime) :
  Forall has_datetime (signals m) ->
  loggable signal ->
  ((add_signal m signal now).1 = false
   <-> (max_signals_per_hour <= count_recent now (signals m))%nat)
  /\ ((add_signal m signal now).1 = false -> (add_signal m signal now).2 = m)
  /\ ((add_signal m signal now).1 = true ->
      signals (add_signal m signal now).2 = take 100 (signal :: signals m))
  /\ (forall old t later,
        old ∈ signals m ->
        old !! "timestamp" = Some (PDatetime t) ->
        now - hours 1 < t -> t <= later - hours 1 -> now <= later ->
        (count_recent now (signals m) <= max_signals_per_hour)%nat ->
        (add_signal m signal later).1 = true).
Proof.
  intros Hwf Hlog.
  assert (forall time,
            (add_signal m signal time).1 = _can_add_signal m time) as Hans.
  { intros time. unfold add_signal.
    destruct (_can_add_signal m time); [|done].
    simpl. by rewrite (log_line_loggable _ Hlog). }
  repeat split.
  - rewrite Hans, (can_add_counts m now Hwf).
    intros Hf%bool_decide_eq_false. lia.
  - rewrite Hans, (can_add_counts m now Hwf).
    intros Hge. apply bool_decide_eq_false. lia.
  - rewrite Hans. intros Hf. unfold add_signal. by rewrite Hf.
  - apply add_signal_accepted.
  - intros old t later Hin Hts Hnew Haged Hle Hcount.
    rewrite Hans, (can_add_counts m later Hwf).
    apply bool_decide_eq_true.
    pose proof (count_recent_aged now later old t _ Hin Hts Hnew Haged Hle).
    lia.
Qed.

(** C4: after accepted [add_signal] calls the history is the candidates
    in reverse order of insertion in front of the earlier history, cut to
    100 entries; 105 accepted insertions into an empty history leave
    exactly the 100 newest, newest first. *)
Theorem history_newest_first_at_most_100
    (m : Manager) (l : list (pydict * datetime)) :
  l <> [] ->
  Forall (fun ok => ok = true) (record_all m l).1 ->
  signals (record_all m l).2 = take 100 (rev (l.*1) ++ signals m)
  /\ (length (signals (record_all m l).2) <= 100)%nat
  /\ (signals m = [] -> length l = 105%nat ->
      signals (record_all m l).2 = rev (drop 5 (l.*1))
      /\ length (signals (record_all m l).2) = 100%nat).
Proof.
  intros Hne Hall.
  destruct (record_all_accepted m l Hall) as [Heq|[-> _]]; [|done].
  split; [done|]. split.
  { rewrite Heq, length_take. lia. }
  intros Hempty Hlen. rewrite Heq, Hempty, app_nil_r.
  assert (length (l.*1) = 105%nat) as Hlen' by by rewrite length_fmap.
  split.
  - rewrite <- (take_drop 5 (l.*1)) at 1.
    rewrite rev_app_distr, take_app_length'; [done|].
    rewrite length_rev, length_drop. lia.
  - rewrite length_take, length_rev. lia.
Qed.

(** C10: when a stored entry has no [datetime] under [timestamp], the
    rate check raises, [_can_add_signal] answers [True], and
    [add_signal] stores the candidate and, the log line formatting it,
    answers [True]. *)
Theorem rate_limiter_fails_open
    (m : Manager) (signal : pydict) (now : datetime) :
  Exists (fun s => ~ has_datetime s) (signals m) ->
  raises (_can_add_signal_body m now)
  /\ _can_add_signal m now = true
  /\ signals (add_signal m signal now).2 = take 100 (signal :: signals m)
  /\ (loggable signal -> (add_signal m signal now).1 = true).
Proof.
  intros Hstray.
  destruct (can_add_stray m now Hstray) as [Hraise Hcan].
  split; [done|]. split; [done|].
  by apply add_signal_passed.
Qed.

Context `{!CodecLaws}.

Lemma save_entry_datetime signal t :
  signal !! "timestamp" = Some (PDatetime t) ->
  save_entry signal = Return (<["timestamp" := PStr (isoformat t)]> signal).
Proof. intros Ht. unfold save_entry, getitem. by rewrite Ht. Qed.

Lemma load_entry_saved signal t :
  signal !! "timestamp" = Some (PDatetime t) ->
  load_entry (<["timestamp" := PStr (isoformat t)]> signal) = Return signal.
Proof.
  intros Ht. unfold load_entry, getitem. rewrite lookup_insert_eq. simpl.
  rewrite iso_roundtrip. simpl.
  by rewrite insert_insert_eq, (insert_id _ _ _ Ht).
Qed.

Lemma save_entries_load_back l :
  Forall storable l ->
  exists data,
    mapM save_entry l = Return data
    /\ Forall (map_Forall (fun _ v => json_value v)) data
    /\ mapM load_entry data = Return l.
Proof.
  induction 1 as [|signal l [[t Ht] Hjson] _ (data & Hsave & Hok & Hload)].
  { by exists []. }
  exists (<["timestamp" := PStr (isoformat t)]> signal :: data).
  split; [|split].
  - cbn [mapM]. by rewrite (save_entry_datetime _ _ Ht), Hsave.
  - constructor; [|done]. intros k v Hk.
    destruct (decide (k = "timestamp")) as [->|Hne].
    + rewrite lookup_insert_eq in Hk. by injection Hk as <-.
    + rewrite lookup_insert_ne in Hk by done. by apply (Hjson k).
  - cbn [mapM]. by rewrite (load_entry_saved _ _ Ht), Hload.
Qed.

(** C8: saving a history of signal records and loading the file gives
    the same list in the same order, timestamps included. *)
Theorem save_then_load_roundtrip (m : Manager) :
  Forall storable (signals m) ->
  _load_signals (signals_file (_save_signals m)) = signals m.
Proof.
  intros Hst.
  destruct (save_entries_load_back _ Hst) as (data & Hsave & Hok & Hload).
  destruct (json_roundtrip data Hok) as (content & Hdump & Hread).
  unfold _save_signals. rewrite Hsave, Hdump. simpl.
  unfold _load_signals, _load_signals_body. rewrite Hread. simpl.
  by rewrite Hload.
Qed.

End StoreClaims.

(** The stand-in codecs satisfy the contract. *)
Lemma bits_not_empty p : Reference.bits p <> EmptyString.
Proof. by destruct p. Qed.

Lemma unbits_bits p : Reference.unbits (Reference.bits p) = Some p.
Proof.
  induction p as [q IH|q IH|]; [| |done].
  - cbn [Reference.bits]. cbn [Reference.unbits].
    destruct (Reference.bits q) eqn:E; [by destruct (bits_not_empty q)|].
    by rewrite IH.
  - cbn [Reference.bits]. cbn [Reference.unbits].
    destruct (Reference.bits q) eqn:E; [by destruct (bits_not_empty q)|].
    by rewrite IH.
Qed.

Lemma reference_codec_laws : SignalManager.CodecLaws (H := Reference.codec).
Proof.
  split.
  - intros doc Hdoc. exists doc. split; [|done]. simpl.
    assert (Reference.doc_ok doc = true) as ->; [|done].
    unfold Reference.doc_ok. apply forallb_forall. intros d Hd.
    apply forallb_forall. intros [k v] Hkv. simpl.
    apply list_elem_of_In in Hd, Hkv.
    rewrite Forall_forall in Hdoc. specialize (Hdoc d Hd).
    apply elem_of_map_to_list in Hkv. specialize (Hdoc k v Hkv).
    by destruct v.
  - intros [|p|p]; simpl; [done| |]; by rewrite unbits_bits.
Qed.

(** Three signals of the last half hour: the fourth is rejected. *)
Lemma add_signal_rate_limit_witness :
  (SignalManager.add_signal (Examples.manager Examples.busy)
     (Examples.signal_at Examples.noon) Examples.noon).1 = false.
Proof.
  assert (Forall SignalManager.has_datetime Examples.busy) as Hwf.
  { repeat constructor; eexists; vm_compute; reflexivity. }
  assert (SignalManager.loggable (Examples.signal_at Examples.noon)) as Hlog.
  { split; [by eexists|]. split; [by eexists|].
    exists (PInt 90). by split. }
  destruct (add_signal_rate_limit (Examples.manager Examples.busy)
              (Examples.signal_at Examples.noon) Examples.noon Hwf Hlog)
    as [Hiff _].
  apply Hiff. vm_compute. lia.
Defined.

(** C3 read for every state and candidate fails both ways: with three recent signals and
    one entry without a timestamp the candidate is accepted, and on an
    empty history a candidate without a direction is answered [False]
    after having been stored. *)
Lemma record_is_not_exactly_the_rate_check :
  ((3 <= SignalManager.count_recent Examples.noon Examples.busy_with_stray)%nat
   /\ (SignalManager.add_signal (Examples.manager Examples.busy_with_stray)
         (Examples.signal_at Examples.noon) Examples.noon).1 = true)
  /\ ((SignalManager.count_recent Examples.noon [] < 3)%nat
      /\ (SignalManager.add_signal (Examples.manager [])
            (Examples.no_direction Examples.noon) Examples.noon).1 = false
      /\ SignalManager.signals
           (SignalManager.add_signal (Examples.manager [])
              (Examples.no_direction Examples.noon) Examples.noon).2
         = [Examples.no_direction Examples.noon]).
Proof.
  split; [split|split; [|split]].
  - vm_compute. lia.
  - vm_compute. reflexivity.
  - vm_compute. lia.
  - vm_compute. reflexivity.
  - vm_compute. reflexivity.
Qed.

(** 105 half-hourly signals, all accepted: the 100 newest remain. *)
Lemma history_newest_first_at_most_100_witness :
  SignalManager.signals
    (SignalManager.record_all (Examples.manager []) Examples.half_hourly).2
  = rev (drop 5 (Examples.half_hourly.*1))
  /\ length (SignalManager.signals
               (SignalManager.record_all (Examples.manager [])
                  Examples.half_hourly).2) = 100%nat.
Proof.
  apply (history_newest_first_at_most_100 (Examples.manager [])
           Examples.half_hourly).
  - discriminate.
  - vm_compute. repeat constructor.
  - reflexivity.
  - reflexivity.
Defined.

(** An entry without a timestamp among three recent signals. *)
Lemma rate_limiter_fails_open_witness :
  (SignalManager.add_signal (Examples.manager Examples.busy_with_stray)
     (Examples.signal_at Examples.noon) Examples.noon).1 = true.
Proof.
  apply (rate_limiter_fails_open (Examples.manager Examples.busy_with_stray)).
  - apply Exists_cons_hd. intros [t Ht]. vm_compute in Ht. discriminate Ht.
  - split; [by eexists|]. split; [by eexists|].
    exists (PInt 90). by split.
Defined.

Lemma signal_at_storable t : SignalManager.storable (Examples.signal_at t).
Proof.
  split; [by exists t|].
  intros k v Hk Hne. unfold Examples.signal_at in Hk.
  apply elem_of_list_to_map_2 in Hk.
  repeat (apply elem_of_cons in Hk as [[= -> ->]|Hk]; [done|]).
  by apply elem_of_nil in Hk.
Qed.

(** Three stored signals written and read back. *)
Lemma save_then_load_roundtrip_witness :
  SignalManager._load_signals
    (SignalManager.signals_file
       (SignalManager._save_signals (Examples.manager Examples.busy)))
  = Examples.busy.
Proof.
  apply (save_then_load_roundtrip (H := Reference.codec)
           (H0 := reference_codec_laws) (Examples.manager Examples.busy)).
  repeat constructor; apply signal_at_storable.
Defined.

(* ================================================================== *)
(** ** The market-data cache *)
(* ================================================================== *)

Section CacheClaims.
Import TradingEngine.
Variable history : string -> string -> string -> outcome DataFrame.

(** The freshness test looks at the seconds component of the age. *)
Lemma cache_hit_spec (cache : Cache) key now data :
  cache_hit cache key now = Some data
  <-> exists stored,
        cache !! key = Some (data, stored)
        /\ ((now - stored) mod us_per_day) / us_per_second < cache_timeout.
Proof.
  unfold cache_hit. destruct (cache !! key) as [[d t]|]; simpl.
  - case_bool_decide as Hage; split.
    + intros [= ->]. by exists t.
    + by intros (? & [= -> ->] & _).
    + done.
    + intros (? & [= -> ->] & Hlt). by destruct Hage.
  - split; [done|]. by intros (? & [=] & _).
Qed.

(** An entry younger than a minute is served without a fetch. *)
Lemma fresh_entry_is_served (cache : Cache) symbol interval period data stored now :
  cache !! cache_key symbol interval period = Some (data, stored) ->
  0 <= now - stored < 60 * us_per_second ->
  get_market_data history cache symbol interval period now
  = {| returned := Some data; cache_after := cache; refetched := false |}.
Proof.
  intros Hin Hage. unfold get_market_data.
  assert (cache_hit cache (cache_key symbol interval period) now = Some data)
    as ->; [|done].
  apply cache_hit_spec. exists stored. split; [done|].
  unfold us_per_day, us_per_second, cache_timeout in *.
  rewrite Z.mod_small by lia.
  apply Z.div_lt_upper_bound; lia.
Qed.

(** C9: an entry stored one day and ten seconds before the request is
    returned as a cache hit, without a fetch. *)
Theorem day_old_entry_is_served
    (cache : Cache) (symbol interval period : string) (data : DataFrame)
    (stored : datetime) :
  cache !! cache_key symbol interval period = Some (data, stored) ->
  get_market_data history cache symbol interval period
    (stored + us_per_day + 10 * us_per_second)
  = {| returned := Some data; cache_after := cache; refetched := false |}.
Proof.
  intros Hin. unfold get_market_data.
  assert (cache_hit cache (cache_key symbol interval period)
            (stored + us_per_day + 10 * us_per_second) = Some data)
    as ->; [|done].
  apply cache_hit_spec. exists stored. split; [done|].
  replace (stored + us_per_day + 10 * us_per_second - stored)
    with (us_per_day + 10 * us_per_second) by lia.
  reflexivity.
Qed.

End CacheClaims.

(** The entry of [Examples.stale_cache], asked for a day and ten seconds
    after it was stored. *)
Lemma day_old_entry_is_served_witness :
  TradingEngine.refetched
    (TradingEngine.get_market_data Reference.history Examples.stale_cache
       "EURUSD=X" "1m" "1d"
       (Examples.noon + us_per_day + 10 * us_per_second)) = false.
Proof.
  rewrite (day_old_entry_is_served Reference.history Examples.stale_cache
             "EURUSD=X" "1m" "1d" Examples.rising Examples.noon);
    reflexivity.
Defined.

(* ================================================================== *)
(** ** The indicator library *)
(* ================================================================== *)

Section IndicatorClaims.
Import TechnicalIndicators.
Context `{Ops}.

Lemma nan_series_shape (s : Series) :
  index (nan_series (index s)) = index s
  /\ values (nan_series (index s)) = replicate (length s) PrimFloat.nan.
Proof.
  unfold nan_series, index, values.
  split; (induction s as [|c s IH]; [done|]; simpl; by f_equal).
Qed.

Lemma try_except_recovers {A} (body : outcome A) (fallback : A) :
  recovers body (try_except body (fun _ => Return fallback)) fallback.
Proof. unfold recovers, try_except. by destruct body. Qed.

(** C7, for series arguments: when the argument whose index the fallback uses
    ([data]; [close] for Stochastic, ATR, Williams %R and CCI) is a
    series, each indicator function returns: what its computation
    returned, or, when the computation raised, the all-undefined series
    on that index (one per key for MACD, Bollinger and Stochastic). *)
Theorem indicators_recover_on_series
    (s : Series) (high low : pyobj) (period fast slow signal d_period : Z)
    (std_dev : float) :
  let u := undefined_like s in
  let data := ObjSeries s in
  recovers (calculate_sma_body data period) (calculate_sma data period) u
  /\ recovers (calculate_ema_body data period) (calculate_ema data period) u
  /\ recovers (calculate_rsi_body data period) (calculate_rsi data period) u
  /\ recovers (calculate_macd_body data fast slow signal)
       (calculate_macd data fast slow signal)
       (<["MACD" := u]> (<["MACD_Signal" := u]> (<["MACD_Hist" := u]> ∅)))
  /\ recovers (calculate_bollinger_bands_body data period std_dev)
       (calculate_bollinger_bands data period std_dev)
       (<["BB_Upper" := u]> (<["BB_Middle" := u]> (<["BB_Lower" := u]> ∅)))
  /\ recovers (calculate_stochastic_body high low data period d_period)
       (calculate_stochastic high low data period d_period)
       (<["Stoch_K" := u]> (<["Stoch_D" := u]> ∅))
  /\ recovers (calculate_atr_body high low data period)
       (calculate_atr high low data period) u
  /\ recovers (calculate_williams_r_body high low data period)
       (calculate_williams_r high low data period) u
  /\ recovers (calculate_cci_body high low data period)
       (calculate_cci high low data period) u
  /\ recovers (calculate_momentum_body data period)
       (calculate_momentum data period) u
  /\ recovers (calculate_roc_body data period) (calculate_roc data period) u
  /\ index (nan_series (index s)) = index s
  /\ values (nan_series (index s)) = replicate (length s) PrimFloat.nan.
Proof.
  intros u data.
  repeat (split; [apply try_except_recovers|]).
  apply nan_series_shape.
Qed.

End IndicatorClaims.

(** C7 read for every input fails on an argument that is no series: the fallback
    reads [data.index], and the exception leaves the function. *)
Lemma indicators_raise_on_none :
  TechnicalIndicators.calculate_sma (H := Reference.ops) ObjNone 14
    = Raise AttributeError
  /\ TechnicalIndicators.calculate_ema (H := Reference.ops) ObjNone 14
     = Raise AttributeError
  /\ TechnicalIndicators.calculate_rsi (H := Reference.ops) ObjNone 14
     = Raise AttributeError
  /\ TechnicalIndicators.calculate_macd (H := Reference.ops) ObjNone 12 26 9
     = Raise AttributeError
  /\ TechnicalIndicators.calculate_bollinger_bands (H := Reference.ops)
       ObjNone 20 2%float = Raise AttributeError
  /\ TechnicalIndicators.calculate_momentum (H := Reference.ops) ObjNone 10
     = Raise AttributeError
  /\ TechnicalIndicators.calculate_roc (H := Reference.ops) ObjNone 12
     = Raise AttributeError.
Proof. repeat split. Qed.

(* ================================================================== *)
(** ** More on the scorer *)
(* ================================================================== *)

Section ScorerMore.
Import TradingEngine.
Context `{Ops}.
Variable randint : Z -> Z -> Z.

(** X1: the session table: two sessions overlap at 8 and from 13 to 16 UTC,
    none is open before 0 or from 22 on; without [pytz] the answer is
    the default. *)
Theorem session_tiers (env : Env) :
  (pytz_importable env = true ->
   (volatility (get_market_session env) = High
    <-> utc_hour env = 8 \/ 13 <= utc_hour env <= 16)
   /\ (volatility (get_market_session env) = Low
       <-> utc_hour env < 0 \/ 22 <= utc_hour env)
   /\ (sessions (get_market_session env) = ["Off-Hours"%string]
       <-> utc_hour env < 0 \/ 22 <= utc_hour env))
  /\ (pytz_importable env = false ->
      get_market_session env
      = {| sessions := ["Unknown"%string]; volatility := Medium |}).
Proof.
  unfold get_market_session, get_market_session_body, session_table.
  split; intros ->; [|done]. simpl.
  rewrite !filter_cons, filter_nil. simpl.
  repeat case_decide; simpl in *; repeat split; intros;
    try lia; try done.
Qed.

Lemma bump_refl w st : bump w st st.
Proof. by left. Qed.

Lemma trigger_bump w0 w d why entry st :
  10 <= w0 <= w -> bump w st (trigger w0 d why entry st).
Proof.
  intros Hw. right. simpl. rewrite !length_app. simpl.
  repeat split; lia.
Qed.

Lemma guarded_bump w0 w d why entry st :
  10 <= w0 <= w -> bump w st (guarded w0 d why entry st).
Proof.
  intros Hw. unfold guarded.
  destruct (agrees d st); [by apply trigger_bump|apply bump_refl].
Qed.

Ltac bump_cases :=
  repeat (case_match;
          try (apply trigger_bump; lia); try (apply guarded_bump; lia));
  try apply bump_refl.

Lemma rule_rsi_bump v st : bump 40 st (rule_rsi v st).
Proof. unfold rule_rsi. bump_cases. Qed.

Lemma rule_bollinger_bump v st : bump 35 st (rule_bollinger v st).
Proof. unfold rule_bollinger. bump_cases. Qed.

Lemma rule_ma_bump v st : bump 25 st (rule_ma v st).
Proof. unfold rule_ma. bump_cases. Qed.

Lemma rule_macd_bump v st : bump 20 st (rule_macd v st).
Proof. unfold rule_macd. bump_cases. Qed.

Lemma rule_momentum_bump m st : bump 15 st (rule_momentum m st).
Proof. unfold rule_momentum. bump_cases. Qed.

Lemma rule_volume_bump df st st' :
  rule_volume df st = Return st' -> bump 20 st st'.
Proof.
  unfold rule_volume. case_bool_decide; [|intros [= <-]; apply bump_refl].
  destruct (column df "Volume") as [vol|]; simpl; [|discriminate].
  repeat case_match; intros [= <-]; try apply bump_refl;
    right; simpl; rewrite ?length_app; simpl; repeat split; lia.
Qed.

Lemma rule_news_bump env st : bump 15 st (rule_news env st).
Proof.
  unfold rule_news. destruct (news_sentiment env); [|apply bump_refl].
  repeat case_match; try apply bump_refl;
    right; simpl; rewrite ?length_app; simpl; repeat split; lia.
Qed.

Lemma rule_volume_direction df st st' :
  rule_volume df st = Return st' -> signal_direction st' = signal_direction st.
Proof.
  unfold rule_volume. case_bool_decide; [|by intros [= <-]].
  destruct (column df "Volume") as [vol|]; simpl; [|discriminate].
  repeat case_match; by intros [= <-].
Qed.

Lemma battery_steps df v env st :
  battery df v env = Return st ->
  exists s1 s2 s3 s4 s5 s6,
    bump 40 initial s1 /\ bump 35 s1 s2 /\ bump 25 s2 s3 /\ bump 20 s3 s4
    /\ bump 15 s4 s5 /\ bump 20 s5 s6 /\ bump 15 s6 st.
Proof.
  unfold battery.
  set (s1 := rule_rsi v initial). set (s2 := rule_bollinger v s1).
  set (s3 := rule_ma v s2). set (s4 := rule_macd v s3).
  set (s5 := rule_momentum (analyze_short_term_momentum df) s4).
  destruct (rule_volume df s5) as [s6|] eqn:Hvol; simpl; [|discriminate].
  intros [= <-]. exists s1, s2, s3, s4, s5, s6.
  repeat split;
    [apply rule_rsi_bump|apply rule_bollinger_bump|apply rule_ma_bump
    |apply rule_macd_bump|apply rule_momentum_bump
    |by apply (rule_volume_bump df)|apply rule_news_bump].
Qed.

Ltac bump_arith :=
  unfold bump in *; simpl in *;
  repeat match goal with
         | B : _ \/ _ |- _ => destruct B
         end;
  lia.

(** X2: what the battery can add up to: every triggered rule contributes one
    reason and a weight between 10 and 40, at most seven rules trigger,
    and the strength never exceeds 170. *)
Theorem battery_bounds (df : DataFrame) (v : Latest) (env : Env) (st : Score) :
  battery df v env = Return st ->
  10 * Z.of_nat (length (technical_reasons st)) <= signal_strength st
  /\ signal_strength st <= 40 * Z.of_nat (length (technical_reasons st))
  /\ signal_strength st <= 170
  /\ (length (technical_reasons st) <= 7)%nat
  /\ (length (entry_signals st) <= length (technical_reasons st))%nat.
Proof.
  intros Hst.
  destruct (battery_steps _ _ _ _ Hst)
    as (s1 & s2 & s3 & s4 & s5 & s6 & B1 & B2 & B3 & B4 & B5 & B6 & B7).
  clear Hst. bump_arith.
Qed.

(** X3: once the RSI and Bollinger rules have run, the direction they left
    committed is the direction of the final score, and the strength they
    reached is not lowered. *)
Theorem committed_direction_is_final
    (df : DataFrame) (v : Latest) (env : Env) (st : Score) (d : Direction) :
  battery df v env = Return st ->
  signal_direction (rule_bollinger v (rule_rsi v initial)) = Some d ->
  signal_direction st = Some d
  /\ signal_strength (rule_bollinger v (rule_rsi v initial))
     <= signal_strength st.
Proof.
  unfold battery.
  set (s2 := rule_bollinger v (rule_rsi v initial)).
  set (s5 := rule_momentum _ _).
  destruct (rule_volume df s5) as [s6|] eqn:Hvol; simpl; [|discriminate].
  intros [= <-] Hd.
  assert (keeps s2 (rule_news env s6)) as (Hs & Hdir & _).
  { eapply keeps_trans; [apply rule_ma_keeps|].
    eapply keeps_trans; [apply rule_macd_keeps|].
    eapply keeps_trans; [apply rule_momentum_keeps|].
    eapply keeps_trans; [by apply (rule_volume_keeps df)|].
    apply rule_news_keeps. }
  split; [by apply Hdir|done].
Qed.

Lemma generate_some_inv data indicators threshold timeframe env sig :
  generate_binary_trading_signal randint data indicators threshold
    timeframe env = Return (Some sig) ->
  exists df v st,
    data = Some df /\ (50 <= df_len df)%nat
    /\ read_latest df indicators = Return v
    /\ battery df v env = Return st
    /\ accept randint df v st threshold timeframe env = Some sig.
Proof.
  unfold generate_binary_trading_signal, generate_binary_trading_signal_body.
  destruct data as [df|]; [|discriminate].
  destruct (df_empty df || bool_decide (indicators = ∅)); [discriminate|].
  simpl. case_bool_decide as Hlen; [discriminate|].
  destruct (read_latest df indicators) as [v|] eqn:Hv; [|discriminate].
  cbn -[battery accept].
  destruct (battery df v env) as [st|] eqn:Hst; [|discriminate].
  cbn -[accept]. intros [= Hacc].
  exists df, v, st. repeat split; try done. lia.
Qed.

(** X4: every signal the scorer returns: its confidence lies between the
    threshold (and 10) and 100, its direction is the one the battery
    ended with, the threshold is covered by 40 points per triggered
    rule, its expiry is 1, 2, 5, 10 or 15 minutes, and it is stamped
    with the time of the call. *)
Theorem returned_signal_facts
    (data : option DataFrame) (indicators : gmap string Series)
    (confidence_threshold : Z) (timeframe : string) (env : Env)
    (sig : Signal) :
  generate_binary_trading_signal randint data indicators
    confidence_threshold timeframe env = Return (Some sig) ->
  confidence_threshold <= confidence sig <= 100
  /\ 10 <= confidence sig
  /\ expiry_minutes sig ∈ [1; 2; 5; 10; 15]
  /\ timestamp sig = now env
  /\ exists df v st,
       data = Some df
       /\ battery df v env = Return st
       /\ signal_direction st = Some (direction sig)
       /\ confidence sig = Z.min (signal_strength st) 100
       /\ confidence_threshold
          <= 40 * Z.of_nat (length (technical_reasons st)).
Proof.
  intros Hgen.
  destruct (generate_some_inv _ _ _ _ _ _ Hgen)
    as (df & v & st & -> & Hlen & Hv & Hst & Hacc).
  assert (10 * Z.of_nat (length (technical_reasons st)) <= signal_strength st
          /\ signal_strength st
             <= 40 * Z.of_nat (length (technical_reasons st))) as [Hlo Hhi].
  { destruct (battery_steps _ _ _ _ Hst)
      as (s1 & s2 & s3 & s4 & s5 & s6 & B1 & B2 & B3 & B4 & B5 & B6 & B7).
    clear -B1 B2 B3 B4 B5 B6 B7. bump_arith. }
  unfold accept in Hacc.
  destruct (signal_direction st) as [d|] eqn:Hd; [|discriminate].
  destruct (bool_decide (confidence_threshold <= _)) eqn:Hthr;
    [|discriminate].
  destruct (bool_decide (_ <= length (technical_reasons st))%nat) eqn:Hmin;
    [|discriminate].
  apply bool_decide_eq_true in Hthr, Hmin.
  simpl in Hacc. injection Hacc as <-. simpl.
  assert (1 <= length (technical_reasons st))%nat as Hone.
  { destruct (String.eqb timeframe "M1"); lia. }
  split; [lia|]. split; [lia|]. split.
  { unfold expiry_of. repeat case_match; set_solver. }
  split; [done|].
  exists df, v, st. repeat split; try done. lia.
Qed.

(** X5: when the first five rules commit no direction and the sentiment is
    at most 0.3 in absolute value (or its provider fails), the scorer
    returns no signal, whatever the volume, threshold and timeframe. *)
Theorem no_direction_no_signal
    (df : DataFrame) (indicators : gmap string Series)
    (confidence_threshold : Z) (timeframe : string) (env : Env) (v : Latest) :
  read_latest df indicators = Return v ->
  signal_direction
    (rule_momentum (analyze_short_term_momentum df)
       (rule_macd v (rule_ma v (rule_bollinger v (rule_rsi v initial)))))
  = None ->
  match news_sentiment env with
  | Return s => fgt (PrimFloat.abs s) 0.3 = false
  | Raise _ => True
  end ->
  generate_binary_trading_signal randint (Some df) indicators
    confidence_threshold timeframe env = Return None.
Proof.
  intros Hv Hnone Hnews.
  unfold generate_binary_trading_signal, generate_binary_trading_signal_body.
  destruct (df_empty df || bool_decide (indicators = ∅)
            || bool_decide (df_len df < 50)%nat); [done|].
  rewrite Hv. cbn -[battery accept]. unfold battery.
  set (s5 := rule_momentum _ _) in *.
  destruct (rule_volume df s5) as [s6|] eqn:Hvol; [|done].
  cbn -[accept]. unfold accept.
  assert (rule_news env s6 = s6) as ->.
  { unfold rule_news. destruct (news_sentiment env); [|done].
    by rewrite Hnews. }
  by rewrite (rule_volume_direction _ _ _ Hvol), Hnone.
Qed.

(** X6: with a random source that draws within its bounds, the entry delay
    is at least 5 and below 40 seconds, also when the timing
    computation fails. *)
Theorem entry_delay_range (df : DataFrame) :
  (forall lo hi, lo < hi -> lo <= randint lo hi < hi) ->
  5 <= _calculate_optimal_entry_timing randint df < 40.
Proof.
  intros Hrand.
  unfold _calculate_optimal_entry_timing,
    _calculate_optimal_entry_timing_body.
  destruct (column df "Close") as [close|]; simpl; [|lia].
  destruct (iloc_neg (tail 5 close) 1) as [p1|]; simpl; [|lia].
  destruct (iloc_neg (tail 5 close) 3) as [p3|]; simpl; [|lia].
  pose proof (Hrand 5 15 ltac:(lia)). pose proof (Hrand 25 40 ltac:(lia)).
  destruct (fgt _ _); simpl; lia.
Qed.

End ScorerMore.

(** The bounds on a score the battery computed for the rising frame. *)
Lemma battery_bounds_witness :
  exists st,
    TradingEngine.battery (H := Reference.ops) Examples.rising
      Examples.oversold_latest Examples.calm = Return st
    /\ TradingEngine.signal_strength st <= 170.
Proof.
  eexists. split; [vm_compute; reflexivity|].
  refine (proj1 (proj2 (proj2
            (battery_bounds (H := Reference.ops) Examples.rising
               Examples.oversold_latest Examples.calm _ _)))).
  vm_compute. reflexivity.
Defined.

(** An oversold RSI commits BUY; the bearish MA and MACD crosses that
    follow leave it. *)
Lemma committed_direction_is_final_witness :
  exists st,
    TradingEngine.battery (H := Reference.ops) Examples.rising
      Examples.oversold_latest Examples.calm = Return st
    /\ TradingEngine.signal_direction st = Some TradingEngine.BUY.
Proof.
  eexists. split; [vm_compute; reflexivity|].
  refine (proj1 (committed_direction_is_final (H := Reference.ops)
                   Examples.rising Examples.oversold_latest Examples.calm
                   _ TradingEngine.BUY _ _)).
  - vm_compute. reflexivity.
  - reflexivity.
Defined.

Lemma returned_signal_facts_witness :
  exists sig,
    TradingEngine.generate_binary_trading_signal (H := Reference.ops)
      Reference.randint (Some Examples.rising)
      Examples.oversold_breakout_cross 75 "1m" Examples.calm
    = Return (Some sig)
    /\ 75 <= TradingEngine.confidence sig <= 100.
Proof.
  eexists. split; [vm_compute; reflexivity|].
  refine (proj1 (returned_signal_facts (H := Reference.ops) Reference.randint
                   (Some Examples.rising) Examples.oversold_breakout_cross 75
                   "1m" Examples.calm _ _)).
  vm_compute. reflexivity.
Defined.

(** Fifty flat bars with a neutral RSI give no signal at threshold 0. *)
Lemma no_direction_no_signal_witness :
  TradingEngine.generate_binary_trading_signal (H := Reference.ops)
    Reference.randint (Some Examples.flat50) Examples.neutral 0 "1m"
    Examples.calm = Return None.
Proof.
  eapply (no_direction_no_signal (H := Reference.ops) Reference.randint
            Examples.flat50 Examples.neutral 0 "1m" Examples.calm).
  - vm_compute. reflexivity.
  - vm_compute. reflexivity.
  - reflexivity.
Defined.

Lemma entry_delay_range_witness :
  5 <= TradingEngine._calculate_optimal_entry_timing Reference.randint
         Examples.rising < 40.
Proof.
  apply (entry_delay_range Reference.randint Examples.rising).
  intros lo hi Hlt. unfold Reference.randint. lia.
Defined.

(* ================================================================== *)
(** ** More on the market-data cache *)
(* ================================================================== *)

Section CacheMore.
Import TradingEngine.
Variable history : string -> string -> string -> outcome DataFrame.

(** X7: a miss that fetches a non-empty frame returns it, and the same
    request within the next minute is answered from the cache with that
    frame, without a fetch. *)
Theorem fetched_frame_is_served_for_a_minute
    (cache : Cache) (symbol interval period : string) (now later : datetime)
    (data : DataFrame) :
  cache_hit cache (cache_key symbol interval period) now = None ->
  history symbol (history_period interval) interval = Return data ->
  df_empty data = false ->
  0 <= later - now < 60 * us_per_second ->
  returned (get_market_data history cache symbol interval period now)
    = Some data
  /\ refetched (get_market_data history cache symbol interval period now)
     = true
  /\ get_market_data history
       (cache_after (get_market_data history cache symbol interval period now))
       symbol interval period later
     = {| returned := Some data;
          cache_after :=
            cache_after
              (get_market_data history cache symbol interval period now);
          refetched := false |}.
Proof.
  intros Hmiss Hfetch Hne Hage.
  assert (get_market_data history cache symbol interval period now
          = {| returned := Some data;
               cache_after :=
                 <[cache_key symbol interval period := (data, now)]> cache;
               refetched := true |}) as ->.
  { unfold get_market_data. by rewrite Hmiss, Hfetch, Hne. }
  simpl. split; [done|]. split; [done|].
  apply (fresh_entry_is_served history _ _ _ _ data now); [|done].
  apply lookup_insert_eq.
Qed.

(** X8: a miss whose fetch raises or brings an empty frame returns [None]
    and leaves the cache as it was; an expired entry of the key is not
    used in its place. *)
Theorem failed_fetch_is_not_cached
    (cache : Cache) (symbol interval period : string) (now : datetime) :
  cache_hit cache (cache_key symbol interval period) now = None ->
  (raises (history symbol (history_period interval) interval)
   \/ exists data,
        history symbol (history_period interval) interval = Return data
        /\ df_empty data = true) ->
  get_market_data history cache symbol interval period now
  = {| returned := None; cache_after := cache; refetched := true |}.
Proof.
  intros Hmiss Hfail. unfold get_market_data. rewrite Hmiss.
  destruct Hfail as [[e ->]|(data & -> & ->)]; done.
Qed.

(** X9: a request changes no cache entry but the one under its own key. *)
Theorem other_keys_untouched
    (cache : Cache) (symbol interval period : string) (now : datetime)
    (key : string) :
  key <> cache_key symbol interval period ->
  cache_after (get_market_data history cache symbol interval period now)
    !! key = cache !! key.
Proof.
  intros Hne. unfold get_market_data.
  destruct (cache_hit _ _ _); [done|].
  destruct (history _ _ _) as [data|]; [|done].
  destruct (df_empty data); [done|]. simpl.
  by rewrite lookup_insert_ne.
Qed.

End CacheMore.

Lemma fetched_frame_is_served_for_a_minute_witness :
  TradingEngine.refetched
    (TradingEngine.get_market_data Examples.online
       (TradingEngine.cache_after
          (TradingEngine.get_market_data Examples.online ∅
             "EURUSD=X" "1m" "1d" Examples.noon))
       "EURUSD=X" "1m" "1d" (Examples.noon + 59 * us_per_second)) = false.
Proof.
  destruct (fetched_frame_is_served_for_a_minute Examples.online ∅
              "EURUSD=X" "1m" "1d" Examples.noon
              (Examples.noon + 59 * us_per_second) Examples.rising)
    as (_ & _ & ->); try reflexivity.
  vm_compute. split; [discriminate|reflexivity].
Defined.

(** An expired entry and a provider that is offline. *)
Lemma failed_fetch_is_not_cached_witness :
  TradingEngine.returned
    (TradingEngine.get_market_data Reference.history Examples.stale_cache
       "EURUSD=X" "1m" "1d" (Examples.noon + 61 * us_per_second)) = None.
Proof.
  rewrite (failed_fetch_is_not_cached Reference.history Examples.stale_cache
             "EURUSD=X" "1m" "1d" (Examples.noon + 61 * us_per_second)).
  - reflexivity.
  - vm_compute. reflexivity.
  - left. by exists OtherError.
Defined.

Lemma other_keys_untouched_witness :
  TradingEngine.cache_after
    (TradingEngine.get_market_data Examples.online Examples.stale_cache
       "GBPUSD=X" "1m" "1d" Examples.noon) !! "EURUSD=X_1m_1d"%string
  = Examples.stale_cache !! "EURUSD=X_1m_1d"%string.
Proof.
  apply (other_keys_untouched Examples.online Examples.stale_cache
           "GBPUSD=X" "1m" "1d" Examples.noon).
  discriminate.
Defined.

(* ================================================================== *)
(** ** More on the signal store *)
(* ================================================================== *)

Section StoreMore.
Import SignalManager.
Context `{Codec}.
Variable upper : string -> string.

Lemma recent_signals_keep_where cutoff l :
  recent_signals cutoff l = keep_where (is_recent cutoff) l.
Proof. induction l as [|s l IH]; [done|]. simpl. by rewrite IH. Qed.

Lemma keep_where_raises test l :
  Exists (fun s => raises (test s)) l -> raises (keep_where test l).
Proof.
  induction 1 as [s l [e He]|s l _ [e IH]]; simpl.
  - rewrite He. by exists e.
  - destruct (test s); simpl; [|by eexists]. rewrite IH. by exists e.
Qed.

Lemma keep_where_returns test l kept :
  keep_where test l = Return kept ->
  sublist kept l
  /\ forall s, s ∈ kept -> s ∈ l /\ test s = Return true.
Proof.
  revert kept. induction l as [|x l IH]; intros kept; simpl.
  { intros [= <-]. split; [done|]. intros s Hs. by apply elem_of_nil in Hs. }
  destruct (test x) as [b|] eqn:Hx; simpl; [|discriminate].
  destruct (keep_where test l) as [tl|]; simpl; [|discriminate].
  destruct (IH tl eq_refl) as [Hsub Hall].
  destruct b; intros [= <-].
  - split; [by apply sublist_skip|].
    intros s [->|Hs]%elem_of_cons; [split; [left|done]|].
    destruct (Hall s Hs). split; [by right|done].
  - split; [by apply sublist_cons|].
    intros s Hs. destruct (Hall s Hs). split; [by right|done].
Qed.

Lemma keep_where_keeps test l kept s :
  keep_where test l = Return kept ->
  s ∈ l -> test s = Return true -> s ∈ kept.
Proof.
  revert kept. induction l as [|x l IH]; intros kept; simpl.
  { intros _ Hs. by apply elem_of_nil in Hs. }
  destruct (test x) as [b|] eqn:Hx; simpl; [|discriminate].
  destruct (keep_where test l) as [tl|]; simpl; [|discriminate].
  intros Hk [->|Hs]%elem_of_cons Ht.
  - rewrite Ht in Hx. injection Hx as <-. injection Hk as <-. left.
  - specialize (IH tl eq_refl Hs Ht). destruct b; injection Hk as <-;
      [by right|done].
Qed.

Lemma keep_where_total test l :
  Forall (fun s => exists b, test s = Return b) l ->
  exists kept, keep_where test l = Return kept.
Proof.
  induction 1 as [|s l [b Hb] _ [tl IH]]; [by exists []|].
  simpl. rewrite Hb, IH. simpl. by eexists.
Qed.

Lemma count_recent_take now n l :
  (count_recent now (take n l) <= count_recent now l)%nat.
Proof.
  unfold count_recent. revert n.
  induction l as [|s l IH]; intros [|n]; simpl; try lia.
  specialize (IH n). destruct (within_last_hour now s); simpl; lia.
Qed.

(** X10: adding a candidate that carries a [datetime] to a history whose
    entries all do leaves a history whose entries all do. *)
Theorem add_signal_keeps_timestamps
    (m : Manager) (signal : pydict) (now : datetime) :
  Forall has_datetime (signals m) ->
  has_datetime signal ->
  Forall has_datetime (signals (add_signal m signal now).2).
Proof.
  intros Hwf Hs. unfold add_signal.
  destruct (_can_add_signal m now); simpl; [|done].
  assert (Forall has_datetime (take 100 (signal :: signals m))) as Hnew.
  { apply Forall_take. by constructor. }
  destruct (log_line signal); simpl; by rewrite save_keeps_signals.
Qed.

(** X11: after an accepted call on a history whose entries all carry a
    [datetime], at most 3 stored signals were created within the
    trailing hour. *)
Theorem accepted_add_stays_within_rate
    (m : Manager) (signal : pydict) (now : datetime) :
  Forall has_datetime (signals m) ->
  (add_signal m signal now).1 = true ->
  (count_recent now (signals (add_signal m signal now).2)
   <= max_signals_per_hour)%nat.
Proof.
  intros Hwf Hok.
  rewrite (add_signal_accepted m signal now Hok).
  assert (_can_add_signal m now = true) as Hcan.
  { unfold add_signal in Hok. by destruct (_can_add_signal m now). }
  rewrite (can_add_counts m now Hwf) in Hcan.
  apply bool_decide_eq_true in Hcan.
  etrans; [apply count_recent_take|].
  unfold count_recent in *. simpl.
  destruct (within_last_hour now signal); simpl; lia.
Qed.

Lemma save_entry_stray signal :
  ~ has_datetime signal -> raises (save_entry signal).
Proof.
  intros Hno. unfold save_entry, getitem, raises.
  destruct (signal !! "timestamp") as [[]|] eqn:E; simpl; try by eexists.
  destruct Hno. by eexists.
Qed.

(** X12: a candidate without a [datetime] under [timestamp] that passes the
    rate check is put at the head of the history in memory, and the
    file is left as it was. *)
Theorem candidate_without_timestamp_is_not_saved
    (m : Manager) (signal : pydict) (now : datetime) :
  ~ has_datetime signal ->
  _can_add_signal m now = true ->
  signals (add_signal m signal now).2 = take 100 (signal :: signals m)
  /\ signals_file (add_signal m signal now).2 = signals_file m.
Proof.
  intros Hno Hcan. split; [by apply add_signal_passed|].
  unfold add_signal. rewrite Hcan. simpl.
  assert (_save_signals
            {| signals := signal :: take 99 (signals m);
               signals_file := signals_file m |}
          = {| signals := signal :: take 99 (signals m);
               signals_file := signals_file m |}) as Hsave.
  { unfold _save_signals. cbn [signals mapM].
    by destruct (save_entry_stray signal Hno) as [e ->]. }
  rewrite Hsave. by destruct (log_line signal).
Qed.

(** X13: the retention purge on a history whose entries all carry a
    [datetime]: what remains is the history, in order, without the
    entries that are not newer than the cutoff. *)
Theorem cleanup_keeps_the_newer
    (m : Manager) (day_count : Z) (now : datetime) :
  Forall has_datetime (signals m) ->
  sublist (signals (cleanup_old_signals m day_count now)) (signals m)
  /\ forall s,
       s ∈ signals (cleanup_old_signals m day_count now)
       <-> s ∈ signals m
           /\ exists t, s !! "timestamp" = Some (PDatetime t)
                        /\ now - timedelta_days day_count < t.
Proof.
  intros Hwf. unfold cleanup_old_signals.
  set (cutoff := now - timedelta_days day_count).
  rewrite recent_signals_keep_where.
  assert (forall s, has_datetime s ->
            exists t, s !! "timestamp" = Some (PDatetime t)
                      /\ is_recent cutoff s = Return (bool_decide (cutoff < t)))
    as Hrec.
  { intros s [t Ht]. exists t. split; [done|].
    unfold is_recent, getitem. by rewrite Ht. }
  destruct (keep_where_total (is_recent cutoff) (signals m)) as [kept Hk].
  { eapply Forall_impl; [exact Hwf|]. intros s Hs.
    destruct (Hrec s Hs) as (t & _ & ->). by eexists. }
  rewrite Hk, save_keeps_signals. simpl.
  destruct (keep_where_returns _ _ _ Hk) as [Hsub Hall].
  split; [done|]. intros s. split.
  - intros Hs. destruct (Hall s Hs) as [Hin Htest]. split; [done|].
    rewrite Forall_forall in Hwf.
    destruct (Hrec s (Hwf s Hin)) as (t & Ht & Ht').
    exists t. split; [done|]. rewrite Htest in Ht'.
    injection Ht' as Ht'. symmetry in Ht'. by apply bool_decide_eq_true in Ht'.
  - intros (Hin & t & Ht & Hnew).
    apply (keep_where_keeps _ _ _ _ Hk Hin).
    unfold is_recent, getitem. rewrite Ht. simpl.
    by rewrite bool_decide_eq_true_2.
Qed.

(** X14: one stored entry without a [datetime] under [timestamp] makes the
    retention purge remove nothing and the query for today's signals
    return nothing. *)
Theorem stray_entry_blocks_purge_and_today
    (m : Manager) (day_count : Z) (now : datetime) :
  Exists (fun s => ~ has_datetime s) (signals m) ->
  cleanup_old_signals m day_count now = m
  /\ get_signals_today m now = [].
Proof.
  intros Hstray. split.
  - unfold cleanup_old_signals.
    by destruct (recent_signals_stray (now - timedelta_days day_count)
                   _ Hstray) as [e ->].
  - unfold get_signals_today.
    destruct (keep_where_raises (is_today (date now)) (signals m))
      as [e ->]; [|done].
    eapply Exists_impl; [exact Hstray|]. intros s Hno.
    unfold is_today, getitem, raises.
    destruct (s !! "timestamp") as [[]|] eqn:E; simpl; try by eexists.
    destruct Hno. by eexists.
Qed.

(** X15: while an entry without a [datetime] is in the history and the
    history has room, every candidate the log line can format is
    accepted, however many arrive within the hour. *)
Theorem stray_entry_disables_rate_limit
    (m : Manager) (l : list (pydict * datetime)) :
  Exists (fun s => ~ has_datetime s) (signals m) ->
  Forall (fun c => loggable c.1) l ->
  (length (signals m) + length l <= 100)%nat ->
  Forall (fun ok => ok = true) (record_all m l).1
  /\ length (signals (record_all m l).2) = (length (signals m) + length l)%nat.
Proof.
  revert m. induction l as [|[signal t] rest IH]; intros m Hstray Hlog Hroom.
  { simpl. split; [done|lia]. }
  apply Forall_cons in Hlog as [Hlog1 Hlog].
  destruct (can_add_stray m t Hstray) as [_ Hcan].
  destruct (add_signal_passed m signal t Hcan) as [Hsig Hok].
  specialize (Hok Hlog1). simpl in Hroom.
  rewrite take_ge in Hsig by (simpl; lia).
  simpl. destruct (add_signal m signal t) as [ok m1]. simpl in *. subst ok.
  specialize (IH m1).
  destruct (record_all m1 rest) as [oks m2]. simpl in *.
  rewrite Hsig in IH. simpl in IH.
  destruct IH as [IH1 IH2]; [by apply Exists_cons_tl|done|lia|].
  split; [by constructor|lia].
Qed.

(** X16: a pair query returns entries of the history in their order, at most
    [count] of them for a [count] that is not negative, each with a
    pair equal to the wanted one up to case. *)
Theorem pair_query_is_a_filtered_prefix
    (m : Manager) (wanted : string) (count : Z) :
  sublist (get_signals_by_pair upper m wanted count) (signals m)
  /\ (0 <= count ->
      Z.of_nat (length (get_signals_by_pair upper m wanted count)) <= count)
  /\ forall s, s ∈ get_signals_by_pair upper m wanted count ->
       match s !! "pair" with
       | Some (PStr p) => upper p = upper wanted
       | Some _ => False
       | None => upper "" = upper wanted
       end.
Proof.
  unfold get_signals_by_pair.
  destruct (keep_where (pair_matches upper wanted) (signals m))
    as [kept|] eqn:Hk.
  2:{ repeat split; [apply sublist_nil_l|simpl; lia|].
      intros s Hs. by apply elem_of_nil in Hs. }
  destruct (keep_where_returns _ _ _ Hk) as [Hsub Hall].
  assert (sublist (slice_to kept count) kept) as Hslice.
  { unfold slice_to. case_bool_decide; apply sublist_take. }
  repeat split.
  - by etrans.
  - intros Hc. unfold slice_to. rewrite bool_decide_eq_true_2 by done.
    rewrite length_take. lia.
  - intros s Hs. apply (elem_of_sublist _ _ _ Hs) in Hslice as Hs'.
    clear Hs. rename Hs' into Hs.
    destruct (Hall s Hs) as [_ Ht]. unfold pair_matches in Ht.
    destruct (s !! "pair") as [[]|]; try discriminate;
      injection Ht as Ht; by apply bool_decide_eq_true in Ht.
Qed.

(** X17: one stored entry whose [pair] is no string makes every pair query
    return nothing. *)
Theorem odd_pair_hides_every_signal
    (m : Manager) (wanted : string) (count : Z) :
  Exists (fun s => exists v, s !! "pair" = Some v
                             /\ forall p, v <> PStr p) (signals m) ->
  get_signals_by_pair upper m wanted count = [].
Proof.
  intros Hodd. unfold get_signals_by_pair.
  destruct (keep_where_raises (pair_matches upper wanted) (signals m))
    as [e ->]; [|done].
  eapply Exists_impl; [exact Hodd|]. intros s (v & Hv & Hns).
  unfold pair_matches, raises. rewrite Hv.
  destruct v; try by eexists. by destruct (Hns s0).
Qed.

(** X18: one entry of the file that cannot be converted makes the load
    return an empty history. *)
Theorem one_unreadable_entry_empties_the_load
    (content : text) (data : list pydict) :
  json_load content = Return data ->
  Exists unreadable data ->
  _load_signals (Some content) = [].
Proof.
  intros Hload Hbad. unfold _load_signals, _load_signals_body.
  rewrite Hload. simpl. clear Hload.
  assert (raises (mapM load_entry data)) as [e ->]; [|done].
  induction Hbad as [s l Hs|s l _ IH]; cbn [mapM].
  - assert (raises (load_entry s)) as [e ->]; [|by exists e].
    unfold unreadable in Hs. revert Hs.
    unfold load_entry, getitem, raises.
    destruct (s !! "timestamp") as [[]|]; simpl; try by eexists.
    intros [e ->]. by exists e.
  - destruct (load_entry s); simpl; [|by eexists].
    destruct IH as [e ->]. by exists e.
Qed.

Context `{!CodecLaws}.

Lemma save_load_storable m :
  Forall storable (signals m) ->
  _load_signals (signals_file (_save_signals m)) = signals m.
Proof.
  intros Hst.
  destruct (save_entries_load_back _ Hst) as (data & Hsave & Hok & Hback).
  destruct (json_roundtrip data Hok) as (content & Hdump & Hread).
  unfold _save_signals. rewrite Hsave, Hdump. simpl.
  unfold _load_signals, _load_signals_body. rewrite Hread. simpl.
  by rewrite Hback.
Qed.

(** X19: after a call that passed the rate check, with signal records in the
    history and as the candidate, loading the file gives the history in
    memory. *)
Theorem file_mirrors_memory_after_add
    (m : Manager) (signal : pydict) (now : datetime) :
  Forall storable (signals m) ->
  storable signal ->
  _can_add_signal m now = true ->
  _load_signals (signals_file (add_signal m signal now).2)
  = signals (add_signal m signal now).2.
Proof.
  intros Hst Hs Hcan. unfold add_signal. rewrite Hcan. simpl.
  set (m1 := {| signals := signal :: take 99 (signals m);
                signals_file := signals_file m |}).
  assert (Forall storable (signals m1)) as Hst1.
  { simpl. constructor; [done|]. by apply Forall_take. }
  destruct (log_line signal); simpl;
    by rewrite (save_load_storable m1 Hst1), save_keeps_signals.
Qed.

End StoreMore.

Lemma add_signal_keeps_timestamps_witness :
  Forall SignalManager.has_datetime
    (SignalManager.signals
       (SignalManager.add_signal (Examples.manager [])
          (Examples.signal_at Examples.noon) Examples.noon).2).
Proof.
  apply (add_signal_keeps_timestamps (Examples.manager [])).
  - constructor.
  - by exists Examples.noon.
Defined.

Lemma accepted_add_stays_within_rate_witness :
  (SignalManager.count_recent Examples.noon
     (SignalManager.signals
        (SignalManager.add_signal (Examples.manager [])
           (Examples.signal_at Examples.noon) Examples.noon).2) <= 3)%nat.
Proof.
  apply (accepted_add_stays_within_rate (Examples.manager [])).
  - constructor.
  - vm_compute. reflexivity.
Defined.

Lemma candidate_without_timestamp_is_not_saved_witness :
  SignalManager.signals_file
    (SignalManager.add_signal (Examples.manager []) Examples.no_timestamp
       Examples.noon).2 = None.
Proof.
  refine (proj2 (candidate_without_timestamp_is_not_saved
                   (Examples.manager []) Examples.no_timestamp
                   Examples.noon _ _)).
  - intros [t Ht]. vm_compute in Ht. discriminate Ht.
  - reflexivity.
Defined.

Lemma cleanup_keeps_the_newer_witness :
  sublist
    (SignalManager.signals
       (SignalManager.cleanup_old_signals (Examples.manager Examples.busy) 7
          Examples.noon)) Examples.busy.
Proof.
  refine (proj1 (cleanup_keeps_the_newer (Examples.manager Examples.busy) 7
                   Examples.noon _)).
  repeat constructor; eexists; vm_compute; reflexivity.
Defined.

Lemma stray_entry_blocks_purge_and_today_witness :
  SignalManager.cleanup_old_signals
    (Examples.manager Examples.busy_with_stray) 0 Examples.noon
  = Examples.manager Examples.busy_with_stray.
Proof.
  refine (proj1 (stray_entry_blocks_purge_and_today
                   (Examples.manager Examples.busy_with_stray) 0
                   Examples.noon _)).
  apply Exists_cons_hd. intros [t Ht]. vm_compute in Ht. discriminate Ht.
Defined.

(** Four more signals within the minute, on top of three recent ones
    and an entry without a timestamp: all accepted. *)
Lemma stray_entry_disables_rate_limit_witness :
  Forall (fun ok => ok = true)
    (SignalManager.record_all (Examples.manager Examples.busy_with_stray)
       [(Examples.signal_at Examples.noon, Examples.noon);
        (Examples.signal_at Examples.noon, Examples.noon);
        (Examples.signal_at Examples.noon, Examples.noon);
        (Examples.signal_at Examples.noon, Examples.noon)]).1.
Proof.
  refine (proj1 (stray_entry_disables_rate_limit
                   (Examples.manager Examples.busy_with_stray) _ _ _ _)).
  - apply Exists_cons_hd. intros [t Ht]. vm_compute in Ht. discriminate Ht.
  - repeat constructor; simpl; try by eexists.
    all: exists (PInt 90); by split.
  - simpl. lia.
Defined.

Lemma odd_pair_hides_every_signal_witness :
  SignalManager.get_signals_by_pair Examples.ascii_upper
    (Examples.manager [Examples.signal_at Examples.noon; Examples.odd_pair])
    "eur/usd" 20 = [].
Proof.
  apply (odd_pair_hides_every_signal Examples.ascii_upper
           (Examples.manager
              [Examples.signal_at Examples.noon; Examples.odd_pair])).
  apply Exists_cons_tl, Exists_cons_hd.
  exists (PInt 7). split; [reflexivity|discriminate].
Defined.

Lemma one_unreadable_entry_empties_the_load_witness :
  SignalManager._load_signals (H := Reference.codec)
    (Some [Examples.signal_at Examples.noon; Examples.garbled]) = [].
Proof.
  apply (one_unreadable_entry_empties_the_load (H := Reference.codec)
           [Examples.signal_at Examples.noon; Examples.garbled]
           [Examples.signal_at Examples.noon; Examples.garbled]).
  - reflexivity.
  - apply Exists_cons_tl, Exists_cons_hd.
    unfold SignalManager.unreadable.
    change (Examples.garbled !! "timestamp"%string)
      with (Some (PStr "yesterday")).
    by exists ValueError.
Defined.

Lemma file_mirrors_memory_after_add_witness :
  SignalManager._load_signals
    (SignalManager.signals_file
       (SignalManager.add_signal (Examples.manager [])
          (Examples.signal_at Examples.noon) Examples.noon).2)
  = SignalManager.signals
      (SignalManager.add_signal (Examples.manager [])
         (Examples.signal_at Examples.noon) Examples.noon).2.
Proof.
  apply (file_mirrors_memory_after_add (H := Reference.codec)
           (H0 := reference_codec_laws) (Examples.manager [])).
  - constructor.
  - apply signal_at_storable.
  - reflexivity.
Defined.


(* ================================================================== *)
(** ** The indicator snapshot *)
(* ================================================================== *)

Section SnapshotMore.
Import TradingEngine TechnicalIndicators.
Context `{Ops}.
Variable pct_change : Series -> outcome Series.

Lemma macd_keys s fast slow signal m :
  calculate_macd (ObjSeries s) fast slow signal = Return m ->
  dom m = {["MACD"; "MACD_Signal"; "MACD_Hist"]}%string.
Proof.
  unfold calculate_macd, try_except.
  destruct (calculate_macd_body _ _ _ _) as [r|] eqn:Hbody.
  - intros [= <-]. revert Hbody. unfold calculate_macd_body.
    repeat (match goal with
            | |- context [?o ≫= _] =>
                destruct o; simpl; [|discriminate]
            end).
    intros [= <-]. rewrite !dom_insert_L. set_solver.
  - simpl. intros [= <-]. rewrite !dom_insert_L. set_solver.
Qed.

Lemma bollinger_keys s period k m :
  calculate_bollinger_bands (ObjSeries s) period k = Return m ->
  dom m = {["BB_Upper"; "BB_Middle"; "BB_Lower"]}%string.
Proof.
  unfold calculate_bollinger_bands, try_except.
  destruct (calculate_bollinger_bands_body _ _ _) as [r|] eqn:Hbody.
  - intros [= <-]. revert Hbody. unfold calculate_bollinger_bands_body.
    repeat (match goal with
            | |- context [?o ≫= _] =>
                destruct o; simpl; [|discriminate]
            end).
    intros [= <-]. rewrite !dom_insert_L. set_solver.
  - simpl. intros [= <-]. rewrite !dom_insert_L. set_solver.
Qed.

(** X21: [calculate_indicators] returns the empty dict (absent or empty data,
    a missing Close or Volume column, or any failure on the way) or a
    dict with exactly its twelve indicator names. *)
Theorem calculate_indicators_all_or_nothing
    (data : option DataFrame) (rsi_period short_period long_period : Z) :
  (calculate_indicators pct_change data rsi_period short_period long_period
     = ∅
   \/ dom (calculate_indicators pct_change data rsi_period short_period
             long_period) = indicator_names)
  /\ (forall df, data = Some df ->
        has_column df "Close" = false \/ has_column df "Volume" = false ->
        calculate_indicators pct_change data rsi_period short_period
          long_period = ∅).
Proof.
  split.
  2:{ intros df -> Hmissing.
      unfold calculate_indicators, calculate_indicators_body, column.
      destruct (df_empty df); [done|].
      destruct (has_column df "Close") eqn:Hc; simpl; [|done].
      destruct Hmissing as [[=]|Hv]. rewrite Hv.
      repeat (match goal with
              | |- context [?o ≫= _] => destruct o; simpl; [|done]
              end).
      done. }
  unfold calculate_indicators, calculate_indicators_body, column.
  destruct data as [df|]; [|by left].
  destruct (df_empty df); [by left|].
  destruct (has_column df "Close"); simpl; [|by left].
  destruct (calculate_rsi _ _) as [r|]; simpl; [|by left].
  destruct (calculate_sma _ short_period) as [ms|]; simpl; [|by left].
  destruct (calculate_sma _ long_period) as [ml|]; simpl; [|by left].
  destruct (calculate_macd _ _ _ _) as [macd_data|] eqn:Hmacd; simpl;
    [|by left].
  destruct (calculate_bollinger_bands _ _ _) as [bb_data|] eqn:Hbb; simpl;
    [|by left].
  destruct (has_column df "Volume"); simpl; [|by left].
  destruct (calculate_sma _ 20) as [vs|]; simpl; [|by left].
  destruct (pct_change _) as [pc|]; simpl; [|by left].
  apply macd_keys in Hmacd. apply bollinger_keys in Hbb.
  set (ind := <["Volume_SMA" := vs]> _).
  assert (dom ind
          = {["Volume_SMA"; "BB_Upper"; "BB_Middle"; "BB_Lower"; "MACD";
              "MACD_Signal"; "MACD_Hist"; "MA_Long"; "MA_Short";
              "RSI"]}%string) as Hdom.
  { unfold ind. rewrite !dom_insert_L, !dom_union_L, !dom_insert_L, Hmacd, Hbb.
    set_solver. }
  clearbody ind.
  destruct (<["Price_Change" := ObjSeries pc]> ind !! "BB_Upper")
    as [upper|] eqn:Hu.
  2:{ apply not_elem_of_dom in Hu. rewrite dom_insert_L, Hdom in Hu.
      clear -Hu. set_solver. }
  destruct (<["Price_Change" := ObjSeries pc]> ind !! "BB_Lower")
    as [lower|] eqn:Hl.
  2:{ apply not_elem_of_dom in Hl. rewrite dom_insert_L, Hdom in Hl.
      clear -Hl. set_solver. }
  destruct (arith Sub (ObjSeries _) lower); simpl; [|by left].
  destruct (arith Sub upper lower); simpl; [|by left].
  destruct (arith Div _ _); simpl; [|by left].
  right. rewrite !dom_insert_L, Hdom. unfold indicator_names. set_solver.
Qed.

End SnapshotMore.
